(** * profitbricks_snapshot: a shallow embedding of the Ansible module

    Source: cloud/profitbricks/profitbricks_snapshot.py.

    The module parses its parameters, resolves datacenter, volume and
    snapshot names to provider identifiers, and calls the ProfitBricks
    client.  The client and the clock are the environment: they are
    modelled as oracles, and every call the module makes on them is
    recorded in a trace of events. *)

From Stdlib Require Import List String Ascii Bool Arith ZArith QArith Qround Lia Lqa.
Import ListNotations.

Local Open Scope string_scope.
Local Open Scope list_scope.

(** ** Python values *)

Module Py.

(** The values the module handles: [None], a flag, a number, a string,
    and a response object of the client, kept as a dict from strings to
    strings. *)
Inductive pyval : Type :=
| PyNone
| PyBool (b : bool)
| PyInt (z : Z)
| PyStr (s : string)
| PyDict (items : list (string * string)).

(** Python truthiness, as used by [if not x]. *)
Definition truthy (v : pyval) : bool :=
  match v with
  | PyNone => false
  | PyBool b => b
  | PyInt z => negb (Z.eqb z 0)
  | PyStr s => negb (String.eqb s EmptyString)
  | PyDict items => match items with [] => false | _ :: _ => true end
  end.

(** [v == 'literal'] for a string literal. *)
Definition eq_str (v : pyval) (lit : string) : bool :=
  match v with
  | PyStr s => String.eqb s lit
  | _ => false
  end.

(** A dict with string keys; [dict_get] is [d.get(k)], which answers
    [None] on a missing key. *)
Definition dict (V : Type) : Type := list (string * V).

Fixpoint lookup {V : Type} (k : string) (d : dict V) : option V :=
  match d with
  | [] => None
  | (k', v) :: rest => if String.eqb k k' then Some v else lookup k rest
  end.

Definition dict_get (k : string) (d : dict pyval) : pyval :=
  match lookup k d with
  | Some v => v
  | None => PyNone
  end.

End Py.
Export Py.

(** ** The compiled pattern [uuid_match]

    [re.compile('[\w]{8}-[\w]{4}-[\w]{4}-[\w]{4}-[\w]{12}', re.I)].
    The pattern is a sequence of single-character atoms, each repeated a
    fixed number of times, so matching needs no backtracking. *)

Module Re.

Inductive atom : Type :=
| Word                (* [\w] *)
| Lit (c : ascii).    (* a literal character *)

(** [atom{n}] *)
Definition piece : Type := (atom * nat)%type.
Definition regex : Type := list piece.

Definition in_range (lo hi c : ascii) : bool :=
  (N.leb (N_of_ascii lo) (N_of_ascii c) && N.leb (N_of_ascii c) (N_of_ascii hi))%bool.

(** [\w] on a byte string with neither LOCALE nor UNICODE set:
    [[a-zA-Z0-9_]]. *)
Definition is_word (c : ascii) : bool :=
  (in_range "a" "z" c || in_range "A" "Z" c || in_range "0" "9" c
   || Ascii.eqb c "_")%bool.

Definition lower (c : ascii) : ascii :=
  if in_range "A" "Z" c then ascii_of_N (N_of_ascii c + 32) else c.

(** One atom against one character; [ignorecase] is the [re.I] flag. *)
Definition match_atom (ignorecase : bool) (a : atom) (c : ascii) : bool :=
  match a with
  | Word => is_word c
  | Lit l => if ignorecase then Ascii.eqb (lower c) (lower l) else Ascii.eqb c l
  end.

(** [atom{n}] at the head of [s]: the rest of [s] when it matches. *)
Fixpoint match_rep (ignorecase : bool) (a : atom) (n : nat) (s : string) : option string :=
  match n with
  | O => Some s
  | S n' =>
      match s with
      | EmptyString => None
      | String c s' =>
          if match_atom ignorecase a c then match_rep ignorecase a n' s' else None
      end
  end.

(** The pieces in sequence at the head of [s]. *)
Fixpoint match_prefix (ignorecase : bool) (r : regex) (s : string) : option string :=
  match r with
  | [] => Some s
  | (a, n) :: r' =>
      match match_rep ignorecase a n s with
      | Some rest => match_prefix ignorecase r' rest
      | None => None
      end
  end.

(** [pattern.match(s)]: a match object (truthy) when the pattern matches
    at the start of [s], [None] otherwise; the end of [s] is free. *)
Definition re_match (ignorecase : bool) (r : regex) (s : string) : bool :=
  match match_prefix ignorecase r s with
  | Some _ => true
  | None => false
  end.

End Re.

Definition uuid_regex : Re.regex :=
  [ (Re.Word, 8); (Re.Lit "-", 1);
    (Re.Word, 4); (Re.Lit "-", 1);
    (Re.Word, 4); (Re.Lit "-", 1);
    (Re.Word, 4); (Re.Lit "-", 1);
    (Re.Word, 12) ]%nat.

(** [uuid_match.match(s)] taken as a condition. *)
Definition uuid_match (s : string) : bool := Re.re_match true uuid_regex s.

(** ** The environment: the provider's client and the clock *)

Module Sdk.

(** A listed or fetched resource: [r['id']] and
    [r['properties']['name']]. *)
Record resource : Type := {
  r_id : string;
  r_name : string
}.

(** What the provider answers.  A request's status depends on how many
    times it has been polled; [latency] is how long the k-th status
    request takes. *)
Record service : Type := {
  list_datacenters : list resource;
  get_datacenter : string -> resource;
  list_volumes : string -> list resource;
  list_snapshots : list resource;
  create_snapshot : string -> string -> pyval -> pyval -> pyval;
  remove_snapshot : string -> pyval;
  get_request : string -> nat -> string;
  latency : nat -> Q
}.

End Sdk.

(** Every call that leaves the process, in the order it is made. *)
Inductive event : Type :=
| EvSleep (secs : Z)
| EvGetRequest (request_id : string) (status : string)
| EvListDatacenters
| EvGetDatacenter (datacenter_id : string)
| EvListVolumes (datacenter : string)
| EvListSnapshots
| EvCreateSnapshot (datacenter volume : string) (snapshot_name description : pyval)
| EvRemoveSnapshot (snapshot : string).

Definition is_sdk_call (e : event) : bool :=
  match e with
  | EvSleep _ => false
  | _ => true
  end.

Definition is_poll (e : event) : bool :=
  match e with
  | EvGetRequest _ _ => true
  | _ => false
  end.

(** ** The interpreter state and its monad *)

Inductive exn : Type :=
| TypeError
| KeyError (key : string)
| Exception (msg : string).

(** What the orchestrator is told: the keyword arguments of
    [module.exit_json] or the message of [module.fail_json]. *)
Inductive report : Type :=
| ExitJson (kwargs : dict pyval)
| FailJson (msg : string).

Inductive res (A : Type) : Type :=
| Ok (a : A)
| Raised (e : exn)
| Exited (r : report)      (* exit_json and fail_json end the process *)
| OutOfFuel.
Arguments Ok {A} a.
Arguments Raised {A} e.
Arguments Exited {A} r.
Arguments OutOfFuel {A}.

(** [params] is [module.params]; [clock] is the wall clock in seconds,
    the value [time.time()] reads; [float_add] is the interpreter's [+]
    on floats, the sum after rounding; [oversleep k] is how much longer
    than asked the k-th sleep lasts; [sleeps] and [polls] count the
    sleeps and the status requests so far; [trace] is the calls made so
    far, oldest first. *)
Record machine : Type := {
  params : dict pyval;
  clock : Q;
  float_add : Q -> Q -> Q;
  oversleep : nat -> Q;
  sleeps : nat;
  polls : nat;
  trace : list event
}.

Definition M (A : Type) : Type := machine -> res A * machine.

Definition ret {A : Type} (a : A) : M A := fun m => (Ok a, m).

Definition bind {A B : Type} (c : M A) (k : A -> M B) : M B :=
  fun m =>
    match c m with
    | (Ok a, m') => k a m'
    | (Raised e, m') => (Raised e, m')
    | (Exited r, m') => (Exited r, m')
    | (OutOfFuel, m') => (OutOfFuel, m')
    end.

Notation "x <- c ;; k" := (bind c (fun x => k))
  (at level 61, c at next level, right associativity).
Notation "c ;;; k" := (bind c (fun _ => k))
  (at level 61, right associativity).

Definition raise {A : Type} (e : exn) : M A := fun m => (Raised e, m).
Definition out_of_fuel {A : Type} : M A := fun m => (OutOfFuel, m).

(** [module.params.get(k)] *)
Definition params_get (k : string) : M pyval :=
  fun m => (Ok (dict_get k (params m)), m).

Definition exit_json (kwargs : dict pyval) : M unit :=
  fun m => (Exited (ExitJson kwargs), m).

Definition fail_json (msg : string) : M unit :=
  fun m => (Exited (FailJson msg), m).

Definition emit (e : event) : M unit :=
  fun m => (Ok tt,
            {| params := params m; clock := clock m; float_add := float_add m;
               oversleep := oversleep m;
               sleeps := sleeps m; polls := polls m;
               trace := trace m ++ [e] |}).

(** [time.time()] *)
Definition time_time : M Q := fun m => (Ok (clock m), m).

(** [x + y] on floats. *)
Definition float_plus (x y : Q) : M Q := fun m => (Ok (float_add m x y), m).

(** [time.sleep(secs)]: the clock moves on by [secs] and by whatever the
    scheduler adds. *)
Definition time_sleep (secs : Z) : M unit :=
  fun m => (Ok tt,
            {| params := params m;
               clock := clock m + inject_Z secs + oversleep m (sleeps m);
               float_add := float_add m;
               oversleep := oversleep m;
               sleeps := S (sleeps m); polls := polls m;
               trace := trace m ++ [EvSleep secs] |}).

(** [x[key]] on a dict of strings; [None], numbers and strings are not
    subscriptable by a key. *)
Definition subscript (x : pyval) (key : string) : M string :=
  match x with
  | PyDict d =>
      match lookup key d with
      | Some v => ret v
      | None => raise (KeyError key)
      end
  | _ => raise TypeError
  end.

(** ** Calls on the client object

    Each method records its call and answers from the oracle. *)

Module Client.

Definition list_datacenters (pb : Sdk.service) : M (list Sdk.resource) :=
  emit EvListDatacenters ;;; ret (Sdk.list_datacenters pb).

Definition get_datacenter (pb : Sdk.service) (datacenter_id : string) : M Sdk.resource :=
  emit (EvGetDatacenter datacenter_id) ;;; ret (Sdk.get_datacenter pb datacenter_id).

Definition list_volumes (pb : Sdk.service) (datacenter : string) : M (list Sdk.resource) :=
  emit (EvListVolumes datacenter) ;;; ret (Sdk.list_volumes pb datacenter).

Definition list_snapshots (pb : Sdk.service) : M (list Sdk.resource) :=
  emit EvListSnapshots ;;; ret (Sdk.list_snapshots pb).

Definition create_snapshot (pb : Sdk.service) (datacenter volume : string)
    (snapshot_name description : pyval) : M pyval :=
  emit (EvCreateSnapshot datacenter volume snapshot_name description) ;;;
  ret (Sdk.create_snapshot pb datacenter volume snapshot_name description).

Definition remove_snapshot (pb : Sdk.service) (snapshot : string) : M pyval :=
  emit (EvRemoveSnapshot snapshot) ;;; ret (Sdk.remove_snapshot pb snapshot).

(** [get_request(request_id=..., status=True)], reduced to the
    [['metadata']['status']] of its answer.  The request takes
    [latency k] seconds. *)
Definition get_request (pb : Sdk.service) (request_id : string) : M string :=
  fun m =>
    let st := Sdk.get_request pb request_id (polls m) in
    (Ok st,
     {| params := params m;
        clock := clock m + Sdk.latency pb (polls m);
        float_add := float_add m;
        oversleep := oversleep m;
        sleeps := sleeps m; polls := S (polls m);
        trace := trace m ++ [EvGetRequest request_id st] |}).

End Client.

(** ** [_wait_for_completion] *)

(** The double quote character, as a string. *)
Definition dq : string := String (ascii_of_nat 34) EmptyString.

Definition failed_message (msg request_id : string) : string :=
  "Request failed to complete " ++ msg ++ " " ++ dq ++ request_id ++ dq
  ++ " to complete.".

Definition timeout_message (msg request_id : string) : string :=
  "Timed out waiting for async operation " ++ msg ++ " " ++ dq ++ request_id ++ dq
  ++ " to complete.".

(** The [while] loop.  [wait_timeout] is the rebound variable, that is
    the deadline.  [fuel] bounds the number of times the loop condition
    is evaluated. *)
Fixpoint wait_loop (fuel : nat) (profitbricks : Sdk.service) (promise : pyval)
    (wait_timeout : Q) (msg : string) : M unit :=
  match fuel with
  | O => out_of_fuel
  | S fuel' =>
      now <- time_time ;;
      if Qlt_le_dec now wait_timeout then
        time_sleep 5 ;;;
        request_id <- subscript promise "requestId" ;;
        status <- Client.get_request profitbricks request_id ;;
        if String.eqb status "DONE" then ret tt
        else if String.eqb status "FAILED" then
          request_id <- subscript promise "requestId" ;;
          raise (Exception (failed_message msg request_id))
        else wait_loop fuel' profitbricks promise wait_timeout msg
      else
        request_id <- subscript promise "requestId" ;;
        raise (Exception (timeout_message msg request_id))
  end.

Definition _wait_for_completion (fuel : nat) (profitbricks : Sdk.service)
    (promise : pyval) (wait_timeout : Q) (msg : string) : M unit :=
  if negb (truthy promise) then ret tt
  else
    start <- time_time ;;
    wait_timeout <- float_plus start wait_timeout ;;
    wait_loop fuel profitbricks promise wait_timeout msg.

(** ** [create_snapshot] and [remove_snapshot] *)

(** [uuid_match.match(v)]; [re] raises [TypeError] on anything but a
    string.  The string is handed back with the verdict. *)
Definition uuid_match_match (v : pyval) : M (string * bool) :=
  match v with
  | PyStr s => ret (s, uuid_match s)
  | _ => raise TypeError
  end.

(** [for d in datacenter_list['items']: ...], with its [break]. *)
Fixpoint locate_datacenter (profitbricks : Sdk.service) (datacenter : string)
    (items : list Sdk.resource) : M string :=
  match items with
  | [] => ret datacenter
  | d :: rest =>
      dc <- Client.get_datacenter profitbricks (Sdk.r_id d) ;;
      if String.eqb datacenter (Sdk.r_name dc) then ret (Sdk.r_id d)
      else locate_datacenter profitbricks datacenter rest
  end.

(** [for v in volume_list['items']: ...] and
    [for s in snapshot_list['items']: ...], with their [break]. *)
Fixpoint locate_by_name (name : string) (items : list Sdk.resource) : string :=
  match items with
  | [] => name
  | v :: rest =>
      if String.eqb name (Sdk.r_name v) then Sdk.r_id v
      else locate_by_name name rest
  end.

Definition create_snapshot (profitbricks : Sdk.service) : M pyval :=
  datacenter <- params_get "datacenter" ;;
  volume <- params_get "volume" ;;
  snapshot_name <- params_get "snapshot_name" ;;
  description <- params_get "description" ;;
  (* Locate UUID for Datacenter *)
  dm <- uuid_match_match datacenter ;;
  datacenter <-
    (if negb (snd dm) then
       datacenter_list <- Client.list_datacenters profitbricks ;;
       locate_datacenter profitbricks (fst dm) datacenter_list
     else ret (fst dm)) ;;
  (* Locate UUID for Volume *)
  vm <- uuid_match_match volume ;;
  volume <-
    (if negb (snd vm) then
       volume_list <- Client.list_volumes profitbricks datacenter ;;
       ret (locate_by_name (fst vm) volume_list)
     else ret (fst vm)) ;;
  Client.create_snapshot profitbricks datacenter volume snapshot_name description.

Definition remove_snapshot (profitbricks : Sdk.service) : M pyval :=
  snapshot <- params_get "snapshot" ;;
  (* Locate UUID for Snapshot *)
  sm <- uuid_match_match snapshot ;;
  snapshot <-
    (if negb (snd sm) then
       snapshot_list <- Client.list_snapshots profitbricks ;;
       ret (locate_by_name (fst sm) snapshot_list)
     else ret (fst sm)) ;;
  Client.remove_snapshot profitbricks snapshot.

(** ** [main] *)

(** The [argument_spec] of the module: each parameter and its default.
    The source also declares [wait] to be of type bool; that matters to
    the parsing the framework does, which is not part of this file. *)
Definition argument_spec : dict pyval :=
  [ ("datacenter", PyNone);
    ("volume", PyNone);
    ("snapshot", PyNone);
    ("snapshot_name", PyNone);
    ("description", PyNone);
    ("subscription_user", PyNone);
    ("subscription_password", PyNone);
    ("wait", PyBool true);
    ("wait_timeout", PyInt 600);
    ("state", PyStr "present") ].

(** [AnsibleModule(argument_spec=...)], for a task the framework
    accepts: the arguments of the task, with the default where the task
    gives none.  The checks and conversions of the framework (unknown
    parameters, a [wait] that is no boolean) happen before [main] reads
    [module.params] and are not modelled; the statements about [main]
    are about [module.params] as parsed. *)
Definition AnsibleModule (spec : dict pyval) (args : dict pyval) : dict pyval :=
  map (fun kd => (fst kd, match lookup (fst kd) args with
                          | Some v => v
                          | None => snd kd
                          end)) spec.

Definition when (b : bool) (c : M unit) : M unit := if b then c else ret tt.

(** [ProfitBricksService] builds the client object from the credentials;
    building it sends nothing. *)
Definition main (ProfitBricksService : pyval -> pyval -> Sdk.service) : M unit :=
  u <- params_get "subscription_user" ;;
  when (negb (truthy u)) (fail_json "subscription_user parameter is required") ;;;
  p <- params_get "subscription_password" ;;
  when (negb (truthy p)) (fail_json "subscription_password parameter is required") ;;;
  subscription_user <- params_get "subscription_user" ;;
  subscription_password <- params_get "subscription_password" ;;
  let profitbricks := ProfitBricksService subscription_user subscription_password in
  state <- params_get "state" ;;
  if eq_str state "absent" then
    s <- params_get "snapshot" ;;
    when (negb (truthy s)) (fail_json "snapshot parameter is required") ;;;
    changed <- remove_snapshot profitbricks ;;
    exit_json [("changed", changed)]
  else if eq_str state "present" then
    d <- params_get "datacenter" ;;
    when (negb (truthy d)) (fail_json "datacenter parameter is required") ;;;
    v <- params_get "volume" ;;
    when (negb (truthy v)) (fail_json "volume parameter is required") ;;;
    snapshot_dict <- create_snapshot profitbricks ;;
    exit_json [("snapshot", snapshot_dict)]
  else ret tt.

(** The machine a task starts on: parameters parsed, nothing called.
    Its float addition is the exact one. *)
Definition boot (args : dict pyval) (start : Q) (over : nat -> Q) : machine :=
  {| params := AnsibleModule argument_spec args;
     clock := start; float_add := Qplus; oversleep := over;
     sleeps := 0; polls := 0; trace := [] |}.

(** [m] after the calls [evs], the clock left alone. *)
Definition log (m : machine) (evs : list event) : machine :=
  {| params := params m; clock := clock m; float_add := float_add m;
     oversleep := oversleep m;
     sleeps := sleeps m; polls := polls m;
     trace := trace m ++ evs |}.

(** ** Vocabulary of the statements *)

(** A listed datacenter under the name [get_datacenter] gives it. *)
Definition as_named (pb : Sdk.service) (d : Sdk.resource) : Sdk.resource :=
  {| Sdk.r_id := Sdk.r_id d;
     Sdk.r_name := Sdk.r_name (Sdk.get_datacenter pb (Sdk.r_id d)) |}.

Definition datacenters_named (pb : Sdk.service) : list Sdk.resource :=
  map (as_named pb) (Sdk.list_datacenters pb).

(** The datacenters the loop fetches, in order: up to and including the
    first one that carries the name. *)
Fixpoint fetched (pb : Sdk.service) (name : string) (items : list Sdk.resource)
    : list string :=
  match items with
  | [] => []
  | d :: rest =>
      Sdk.r_id d ::
      (if String.eqb name (Sdk.r_name (Sdk.get_datacenter pb (Sdk.r_id d)))
       then [] else fetched pb name rest)
  end.

(** In the words of the specification: the first listed resource whose
    name equals the string exactly, if there is one. *)
Definition first_named (name : string) (items : list Sdk.resource) : option Sdk.resource :=
  find (fun r => String.eqb (Sdk.r_name r) name) items.

(** The three name-resolution blocks, as the value they leave in the
    variable and the calls they make. *)
Definition datacenter_block (pb : Sdk.service) (datacenter : string)
    : string * list event :=
  if uuid_match datacenter then (datacenter, [])
  else (locate_by_name datacenter (datacenters_named pb),
        EvListDatacenters
        :: map EvGetDatacenter (fetched pb datacenter (Sdk.list_datacenters pb))).

Definition volume_block (pb : Sdk.service) (datacenter volume : string)
    : string * list event :=
  if uuid_match volume then (volume, [])
  else (locate_by_name volume (Sdk.list_volumes pb datacenter),
        [EvListVolumes datacenter]).

Definition snapshot_block (pb : Sdk.service) (snapshot : string)
    : string * list event :=
  if uuid_match snapshot then (snapshot, [])
  else (locate_by_name snapshot (Sdk.list_snapshots pb), [EvListSnapshots]).

(** The shape the pattern describes: five groups of word characters,
    of 8, 4, 4, 4 and 12, with a hyphen between them, then anything. *)
Fixpoint all_chars (p : ascii -> bool) (s : string) : bool :=
  match s with
  | EmptyString => true
  | String c s' => (p c && all_chars p s')%bool
  end.

Definition word_group (n : nat) (g : string) : Prop :=
  String.length g = n /\ all_chars Re.is_word g = true.

Definition uuid_shape (s : string) : Prop :=
  exists g1 g2 g3 g4 g5 rest,
    s = (g1 ++ "-" ++ g2 ++ "-" ++ g3 ++ "-" ++ g4 ++ "-" ++ g5 ++ rest)%string
    /\ word_group 8 g1 /\ word_group 4 g2 /\ word_group 4 g3
    /\ word_group 4 g4 /\ word_group 12 g5.

(** A computation whose only effect is to make calls of the kind [ok]:
    parameters, clock and counters are left as they were. *)
Definition only_calls {A : Type} (ok : event -> bool) (c : M A) : Prop :=
  forall m, exists calls, snd (c m) = log m calls /\ forallb ok calls = true.

(** Calls that list, fetch, create or remove; neither a sleep nor a
    status poll. *)
Definition is_resource_call (e : event) : bool :=
  (is_sdk_call e && negb (is_poll e))%bool.

(** The outcome C5 describes for state 'present' and for state 'absent'. *)
Definition creates_and_reports (svc : pyval -> pyval -> Sdk.service) (m : machine)
    : Prop :=
  exists pb d v n desc calls,
    main svc m =
    (Exited (ExitJson [("snapshot", Sdk.create_snapshot pb d v n desc)]),
     log m (calls ++ [EvCreateSnapshot d v n desc])).

Definition removes_and_reports (svc : pyval -> pyval -> Sdk.service) (m : machine)
    : Prop :=
  exists pb s calls,
    main svc m =
    (Exited (ExitJson [("changed", Sdk.remove_snapshot pb s)]),
     log m (calls ++ [EvRemoveSnapshot s])).

(** ** Vocabulary for the polling loop *)

(** One turn of the loop body on a promise that carries [request_id]:
    the sleep, then the status request. *)
Definition iteration (pb : Sdk.service) (request_id : string) (m : machine) : machine :=
  snd ((time_sleep 5 ;;; Client.get_request pb request_id) m).

(** The machine [k] turns later. *)
Definition after (pb : Sdk.service) (request_id : string) (k : nat) (m : machine)
    : machine :=
  Nat.iter k (iteration pb request_id) m.

(** The answer to the k-th status request made from [m] on. *)
Definition status_at (pb : Sdk.service) (request_id : string) (m : machine) (k : nat)
    : string :=
  Sdk.get_request pb request_id (polls m + k).

Definition terminal (status : string) : bool :=
  (String.eqb status "DONE" || String.eqb status "FAILED")%bool.

(** The calls made between [m] and [m']. *)
Definition new_calls (m m' : machine) : list event :=
  skipn (List.length (trace m)) (trace m').

(** The statuses the status requests in [calls] were answered with. *)
Fixpoint polled (calls : list event) : list string :=
  match calls with
  | [] => []
  | EvGetRequest _ status :: rest => status :: polled rest
  | _ :: rest => polled rest
  end.

(** The environment keeps time: a sleep lasts at least as long as asked,
    a request takes no negative time, and the readings of the clock are
    floats, among which float addition rounds: the rounded sum is not
    above a reading that the exact sum is not above. *)
Definition time_passes (pb : Sdk.service) (m : machine) : Prop :=
  (forall k, 0 <= oversleep m k)%Q
  /\ (forall k, 0 <= Sdk.latency pb k)%Q
  /\ (forall x y request_id k,
        (x + y <= clock (after pb request_id k m))%Q ->
        (float_add m x y <= clock (after pb request_id k m))%Q).

(** The deadline the helper computes before the loop. *)
Definition deadline_of (m : machine) (wait_timeout : Q) : Q :=
  float_add m (clock m) wait_timeout.

(** The status the loop stopped on, if it polled at all, and where that
    leaves the caller. *)
Definition last_status (pb : Sdk.service) (request_id : string) (m : machine) (n : nat)
    : option string :=
  match n with
  | O => None
  | S n' => Some (status_at pb request_id m n')
  end.

Definition gave_up (last : option string) : bool :=
  match last with
  | Some status => negb (terminal status)
  | None => true
  end.

Definition verdict (msg request_id : string) (last : option string) : res unit :=
  match last with
  | Some status =>
      if String.eqb status "DONE" then Ok tt
      else if String.eqb status "FAILED" then
        Raised (Exception (failed_message msg request_id))
      else Raised (Exception (timeout_message msg request_id))
  | None => Raised (Exception (timeout_message msg request_id))
  end.

(** ** Vocabulary for identifiers *)

Definition is_hex (c : ascii) : bool :=
  (Re.in_range "0" "9" c || Re.in_range "a" "f" c || Re.in_range "A" "F" c)%bool.

Definition hex_group (n : nat) (g : string) : Prop :=
  String.length g = n /\ all_chars is_hex g = true.

(** A UUID in its usual text form: 8-4-4-4-12 hexadecimal digits of
    either case, and nothing else. *)
Definition canonical_uuid (s : string) : Prop :=
  exists g1 g2 g3 g4 g5,
    s = (g1 ++ "-" ++ g2 ++ "-" ++ g3 ++ "-" ++ g4 ++ "-" ++ g5)%string
    /\ hex_group 8 g1 /\ hex_group 4 g2 /\ hex_group 4 g3
    /\ hex_group 4 g4 /\ hex_group 12 g5.

(** The two calls that change something at the provider. *)
Definition is_lifecycle (e : event) : bool :=
  match e with
  | EvCreateSnapshot _ _ _ _ => true
  | EvRemoveSnapshot _ => true
  | _ => false
  end.

Definition is_lookup (e : event) : bool :=
  match e with
  | EvListDatacenters | EvGetDatacenter _ | EvListVolumes _ | EvListSnapshots => true
  | _ => false
  end.

Definition is_str (v : pyval) : bool :=
  match v with
  | PyStr _ => true
  | _ => false
  end.

(** Turn [k] of the loop is begun: every status before it was neither
    "DONE" nor "FAILED", and [k] turns on the clock is still before the
    deadline. *)
Definition turn_begins (pb : Sdk.service) (request_id : string) (m : machine)
    (deadline : Q) (k : nat) : Prop :=
  (forall j, (j < k)%nat -> terminal (status_at pb request_id m j) = false)
  /\ (clock (after pb request_id k m) < deadline)%Q.

(** In the words of C3: some status request is answered [status] within
    the wait window, that is no later than [wait_timeout] seconds after
    the start. *)
Definition observed_in_window (pb : Sdk.service) (request_id : string) (m : machine)
    (wait_timeout : Q) (status : string) : Prop :=
  exists k,
    status_at pb request_id m k = status
    /\ (clock (after pb request_id (S k) m) <= clock m + wait_timeout)%Q.

(** ** A small provider, for concrete runs *)

Module Example.

Definition dc1 : string := "0f3a9c1e-7b2d-4e5f-8a6b-1c2d3e4f5a6b".
Definition dc2 : string := "9b8a7c6d-5e4f-4a3b-9c2d-1e0f9a8b7c6d".
Definition vol1 : string := "5d4c3b2a-1f0e-4d9c-8b7a-6f5e4d3c2b1a".
Definition snap1 : string := "076017e1-cc53-48c3-b8fb-1841b6d773b5".
Definition snap2 : string := "a1b2c3d4-e5f6-4a7b-8c9d-0e1f2a3b4c5d".

(** A snapshot whose name has the shape of an identifier. *)
Definition odd_name : string := "snapshot-2016-prod-east-nightly_copy of vol01".

Definition pb : Sdk.service :=
  {| Sdk.list_datacenters :=
       [ {| Sdk.r_id := dc1; Sdk.r_name := "Gallifrey" |};
         {| Sdk.r_id := dc2; Sdk.r_name := "Tardis One" |} ];
     Sdk.get_datacenter := fun i =>
       {| Sdk.r_id := i;
          Sdk.r_name := if String.eqb i dc1 then "Gallifrey" else "Tardis One" |};
     Sdk.list_volumes := fun _ => [ {| Sdk.r_id := vol1; Sdk.r_name := "vol01" |} ];
     Sdk.list_snapshots :=
       [ {| Sdk.r_id := snap1; Sdk.r_name := "my super snapshot" |};
         {| Sdk.r_id := snap2; Sdk.r_name := odd_name |} ];
     Sdk.create_snapshot := fun d v _ _ =>
       PyDict [("requestId", "req-1"); ("datacenter", d); ("volume", v)];
     Sdk.remove_snapshot := fun _ => PyBool true;
     Sdk.get_request := fun _ k => if Nat.ltb k 2 then "RUNNING" else "DONE";
     Sdk.latency := fun _ => 0 |}.

(** The same provider with a request that never leaves "RUNNING", and
    with one that fails at the second poll. *)
Definition with_status (answer : nat -> string) : Sdk.service :=
  {| Sdk.list_datacenters := Sdk.list_datacenters pb;
     Sdk.get_datacenter := Sdk.get_datacenter pb;
     Sdk.list_volumes := Sdk.list_volumes pb;
     Sdk.list_snapshots := Sdk.list_snapshots pb;
     Sdk.create_snapshot := Sdk.create_snapshot pb;
     Sdk.remove_snapshot := Sdk.remove_snapshot pb;
     Sdk.get_request := fun _ => answer;
     Sdk.latency := fun _ => 1 # 4 |}.

Definition stuck : Sdk.service := with_status (fun _ => "RUNNING").

Definition failing : Sdk.service :=
  with_status (fun k => if Nat.eqb k 1 then "FAILED" else "QUEUED").

Definition promise : pyval := PyDict [("requestId", "req-1")].

(** A request that stays "RUNNING", on a provider that answers in no
    time. *)
Definition never_done : Sdk.service :=
  {| Sdk.list_datacenters := Sdk.list_datacenters pb;
     Sdk.get_datacenter := Sdk.get_datacenter pb;
     Sdk.list_volumes := Sdk.list_volumes pb;
     Sdk.list_snapshots := Sdk.list_snapshots pb;
     Sdk.create_snapshot := Sdk.create_snapshot pb;
     Sdk.remove_snapshot := Sdk.remove_snapshot pb;
     Sdk.get_request := fun _ _ => "RUNNING";
     Sdk.latency := fun _ => 0 |}.

Definition ProfitBricksService (_ _ : pyval) : Sdk.service := pb.

Definition credentials : dict pyval :=
  [ ("subscription_user", PyStr "user@example.com");
    ("subscription_password", PyStr "secret") ].

(** The first and the third task of EXAMPLES, with credentials. *)
Definition create_task : dict pyval :=
  credentials ++
  [ ("datacenter", PyStr "Tardis One"); ("volume", PyStr "vol01");
    ("wait_timeout", PyInt 500); ("state", PyStr "present") ].

Definition remove_task : dict pyval :=
  credentials ++
  [ ("snapshot", PyStr "my super snapshot");
    ("wait_timeout", PyInt 500); ("state", PyStr "absent") ].

Definition start (args : dict pyval) : machine := boot args 0 (fun _ => 0).

End Example.

(** * Properties *)

(** ** Bookkeeping on traces *)

Lemma log_nil (m : machine) : log m [] = m.
Proof.
  destruct m; unfold log; simpl. now rewrite app_nil_r.
Qed.

Lemma log_log (m : machine) (a b : list event) : log (log m a) b = log m (a ++ b).
Proof.
  unfold log; simpl. now rewrite app_assoc.
Qed.

Lemma emit_log (e : event) (m : machine) : emit e m = (Ok tt, log m [e]).
Proof. reflexivity. Qed.

(** ** What the name loops compute *)

Lemma locate_datacenter_run (pb : Sdk.service) (name : string)
    (items : list Sdk.resource) (m : machine) :
  locate_datacenter pb name items m =
  (Ok (locate_by_name name (map (as_named pb) items)),
   log m (map EvGetDatacenter (fetched pb name items))).
Proof.
  revert m. induction items as [|d rest IH]; intro m; simpl.
  - unfold ret. now rewrite log_nil.
  - unfold bind, Client.get_datacenter, bind. rewrite emit_log. unfold ret.
    destruct (String.eqb name (Sdk.r_name (Sdk.get_datacenter pb (Sdk.r_id d)))).
    + reflexivity.
    + rewrite IH, log_log. reflexivity.
Qed.

Lemma locate_by_name_first (name : string) (items : list Sdk.resource) :
  locate_by_name name items =
  match first_named name items with
  | Some r => Sdk.r_id r
  | None => name
  end.
Proof.
  unfold first_named. induction items as [|v rest IH]; simpl; [reflexivity|].
  rewrite (String.eqb_sym (Sdk.r_name v) name).
  destruct (String.eqb name (Sdk.r_name v)); [reflexivity | exact IH].
Qed.

Lemma first_named_none (name : string) (items : list Sdk.resource) :
  first_named name items = None <->
  (forall r, In r items -> Sdk.r_name r <> name).
Proof.
  unfold first_named. split.
  - intros H r Hin Heq.
    apply (find_none _ _ H) in Hin. apply String.eqb_neq in Hin. contradiction.
  - intro H. induction items as [|v rest IH]; simpl; [reflexivity|].
    destruct (String.eqb (Sdk.r_name v) name) eqn:E.
    + apply String.eqb_eq in E. exfalso. apply (H v); [now left | exact E].
    + apply IH. intros r Hin. apply H. now right.
Qed.

(** ** What [create_snapshot] and [remove_snapshot] do on string parameters *)

Lemma create_snapshot_run (pb : Sdk.service) (m : machine) (datacenter volume : string) :
  dict_get "datacenter" (params m) = PyStr datacenter ->
  dict_get "volume" (params m) = PyStr volume ->
  let snapshot_name := dict_get "snapshot_name" (params m) in
  let description := dict_get "description" (params m) in
  let d := datacenter_block pb datacenter in
  let v := volume_block pb (fst d) volume in
  create_snapshot pb m =
  (Ok (Sdk.create_snapshot pb (fst d) (fst v) snapshot_name description),
   log m (snd d ++ snd v
          ++ [EvCreateSnapshot (fst d) (fst v) snapshot_name description])).
Proof.
  intros Hd Hv. cbv zeta.
  unfold create_snapshot, bind, params_get. rewrite Hd, Hv. cbn [uuid_match_match ret fst snd].
  unfold datacenter_block, volume_block.
  destruct (uuid_match datacenter) eqn:Ed; cbn [negb fst snd].
  - destruct (uuid_match volume) eqn:Ev; cbn [negb fst snd].
    + reflexivity.
    + unfold Client.list_volumes, Client.create_snapshot, bind, ret.
      rewrite !emit_log, log_log. reflexivity.
  - unfold Client.list_datacenters, bind, ret. rewrite emit_log.
    rewrite locate_datacenter_run, log_log. fold (datacenters_named pb).
    destruct (uuid_match volume) eqn:Ev; cbn [negb fst snd].
    + unfold Client.create_snapshot, bind, ret. rewrite emit_log, log_log.
      now rewrite <- app_assoc.
    + unfold Client.list_volumes, Client.create_snapshot, bind, ret.
      rewrite !emit_log, !log_log. now rewrite <- !app_assoc.
Qed.

Lemma remove_snapshot_run (pb : Sdk.service) (m : machine) (snapshot : string) :
  dict_get "snapshot" (params m) = PyStr snapshot ->
  let s := snapshot_block pb snapshot in
  remove_snapshot pb m =
  (Ok (Sdk.remove_snapshot pb (fst s)),
   log m (snd s ++ [EvRemoveSnapshot (fst s)])).
Proof.
  intros Hs. cbv zeta.
  unfold remove_snapshot, bind, params_get. rewrite Hs. cbn [uuid_match_match ret fst snd].
  unfold snapshot_block.
  destruct (uuid_match snapshot) eqn:Es; cbn [negb fst snd].
  - reflexivity.
  - unfold Client.list_snapshots, Client.remove_snapshot, bind, ret.
    rewrite !emit_log, log_log. reflexivity.
Qed.

(** ** The pattern *)

Lemma string_app_assoc (a b c : string) : ((a ++ b) ++ c = a ++ (b ++ c))%string.
Proof.
  induction a as [|x a IH]; simpl; [reflexivity | now rewrite IH].
Qed.

Lemma match_rep_spec (i : bool) (a : Re.atom) (n : nat) (s rest : string) :
  Re.match_rep i a n s = Some rest <->
  exists g, s = (g ++ rest)%string /\ String.length g = n
            /\ all_chars (Re.match_atom i a) g = true.
Proof.
  revert s. induction n as [|n IH]; intro s; simpl.
  - split.
    + intro H. injection H as ->. exists EmptyString. now repeat split.
    + intros [g [-> [Hl _]]]. destruct g; [reflexivity | discriminate].
  - destruct s as [|c s'].
    + split; [discriminate|].
      intros [g [Hs [Hl _]]]. destruct g; discriminate.
    + destruct (Re.match_atom i a c) eqn:Hc.
      * rewrite IH. split.
        -- intros [g [-> [Hl Hg]]]. exists (String c g). simpl.
           rewrite Hc, Hg, Hl. now repeat split.
        -- intros [g [Hs [Hl Hg]]]. destruct g as [|c' g]; [discriminate|].
           simpl in Hs, Hl, Hg. injection Hs as -> ->. injection Hl as Hl.
           apply andb_true_iff in Hg as [_ Hg]. exists g. now repeat split.
      * split; [discriminate|].
        intros [g [Hs [Hl Hg]]]. destruct g as [|c' g]; [discriminate|].
        simpl in Hs, Hg. injection Hs as -> ->.
        rewrite Hc in Hg. discriminate.
Qed.

(** Ignoring case changes nothing for the hyphen. *)
Lemma match_hyphen (c : ascii) :
  Re.match_atom true (Re.Lit "-") c = true <-> c = "-"%char.
Proof.
  split.
  - destruct c as [[] [] [] [] [] [] [] []]; vm_compute; intro H;
      first [reflexivity | discriminate].
  - intros ->. reflexivity.
Qed.

Lemma match_hyphen_spec (s rest : string) :
  Re.match_rep true (Re.Lit "-") 1 s = Some rest <-> s = ("-" ++ rest)%string.
Proof.
  rewrite match_rep_spec. split.
  - intros [g [-> [Hl Hg]]].
    destruct g as [|c [|c' g]]; try discriminate.
    simpl in Hg. rewrite andb_true_r in Hg. apply match_hyphen in Hg. now subst.
  - intros ->. exists "-". now repeat split.
Qed.

Lemma match_word_spec (n : nat) (s rest : string) :
  Re.match_rep true Re.Word n s = Some rest <->
  exists g, s = (g ++ rest)%string /\ word_group n g.
Proof.
  rewrite match_rep_spec. unfold word_group. simpl.
  split; intros [g [H1 [H2 H3]]]; exists g; now repeat split.
Qed.

Lemma uuid_match_shape (s : string) : uuid_match s = true <-> uuid_shape s.
Proof.
  unfold uuid_match, Re.re_match, uuid_regex, uuid_shape. cbn [Re.match_prefix].
  split.
  - destruct (Re.match_rep true Re.Word 8 s) as [r1|] eqn:E1; [|discriminate].
    destruct (Re.match_rep true (Re.Lit "-") 1 r1) as [r2|] eqn:E2; [|discriminate].
    destruct (Re.match_rep true Re.Word 4 r2) as [r3|] eqn:E3; [|discriminate].
    destruct (Re.match_rep true (Re.Lit "-") 1 r3) as [r4|] eqn:E4; [|discriminate].
    destruct (Re.match_rep true Re.Word 4 r4) as [r5|] eqn:E5; [|discriminate].
    destruct (Re.match_rep true (Re.Lit "-") 1 r5) as [r6|] eqn:E6; [|discriminate].
    destruct (Re.match_rep true Re.Word 4 r6) as [r7|] eqn:E7; [|discriminate].
    destruct (Re.match_rep true (Re.Lit "-") 1 r7) as [r8|] eqn:E8; [|discriminate].
    destruct (Re.match_rep true Re.Word 12 r8) as [r9|] eqn:E9; [|discriminate].
    intros _.
    apply match_word_spec in E1 as [g1 [-> W1]].
    apply match_hyphen_spec in E2 as ->.
    apply match_word_spec in E3 as [g2 [-> W2]].
    apply match_hyphen_spec in E4 as ->.
    apply match_word_spec in E5 as [g3 [-> W3]].
    apply match_hyphen_spec in E6 as ->.
    apply match_word_spec in E7 as [g4 [-> W4]].
    apply match_hyphen_spec in E8 as ->.
    apply match_word_spec in E9 as [g5 [-> W5]].
    exists g1, g2, g3, g4, g5, r9.
    repeat first [assumption | reflexivity | apply conj].
  - intros [g1 [g2 [g3 [g4 [g5 [rest [-> [W1 [W2 [W3 [W4 W5]]]]]]]]]]].
    rewrite (proj2 (match_word_spec 8 _ _) (ex_intro _ g1 (conj eq_refl W1))).
    rewrite (proj2 (match_hyphen_spec _ _) eq_refl).
    rewrite (proj2 (match_word_spec 4 _ _) (ex_intro _ g2 (conj eq_refl W2))).
    rewrite (proj2 (match_hyphen_spec _ _) eq_refl).
    rewrite (proj2 (match_word_spec 4 _ _) (ex_intro _ g3 (conj eq_refl W3))).
    rewrite (proj2 (match_hyphen_spec _ _) eq_refl).
    rewrite (proj2 (match_word_spec 4 _ _) (ex_intro _ g4 (conj eq_refl W4))).
    rewrite (proj2 (match_hyphen_spec _ _) eq_refl).
    rewrite (proj2 (match_word_spec 12 _ _) (ex_intro _ g5 (conj eq_refl W5))).
    reflexivity.
Qed.

(** ** Name resolution *)

(** C8.  [uuid_match] accepts exactly the strings that start with five
    groups of 8, 4, 4, 4 and 12 word characters joined by hyphens: the
    letters need not be hexadecimal, underscores count, and whatever
    follows is ignored.  A parameter of that shape is handed to the
    provider as it is, with no list call, whatever the provider lists;
    so a resource with such a name is not found by its name. *)
Theorem uuid_shaped_strings_are_taken_as_ids
    (pb : Sdk.service) (m : machine) (s t : string) :
  (uuid_match s = true <-> uuid_shape s)
  /\ (uuid_shape s -> uuid_match (s ++ t) = true)
  /\ uuid_match "zzzzzzzz-zzzz-zzzz-zzzz-zzzzzzzzzzzz" = true
  /\ uuid_match "________-____-____-____-____________" = true
  /\ uuid_match Example.odd_name = true
  /\ uuid_match "076017e1-cc53-48c3-b8fb-1841b6d773b" = false
  /\ (uuid_shape s ->
      dict_get "snapshot" (params m) = PyStr s ->
      remove_snapshot pb m =
      (Ok (Sdk.remove_snapshot pb s), log m [EvRemoveSnapshot s]))
  /\ (uuid_shape s ->
      dict_get "datacenter" (params m) = PyStr s ->
      dict_get "volume" (params m) = PyStr t ->
      exists v calls,
        create_snapshot pb m =
        (Ok (Sdk.create_snapshot pb s v (dict_get "snapshot_name" (params m))
               (dict_get "description" (params m))),
         log m (calls ++ [EvCreateSnapshot s v (dict_get "snapshot_name" (params m))
                            (dict_get "description" (params m))]))
        /\ ~ In EvListDatacenters calls
        /\ (forall i, ~ In (EvGetDatacenter i) calls))
  /\ (uuid_shape s ->
      dict_get "datacenter" (params m) = PyStr t ->
      dict_get "volume" (params m) = PyStr s ->
      exists d calls,
        create_snapshot pb m =
        (Ok (Sdk.create_snapshot pb d s (dict_get "snapshot_name" (params m))
               (dict_get "description" (params m))),
         log m (calls ++ [EvCreateSnapshot d s (dict_get "snapshot_name" (params m))
                            (dict_get "description" (params m))]))
        /\ (forall x, ~ In (EvListVolumes x) calls)).
Proof.
  split; [apply uuid_match_shape|].
  split.
  { intros [g1 [g2 [g3 [g4 [g5 [rest [-> W]]]]]]].
    apply uuid_match_shape. exists g1, g2, g3, g4, g5, (rest ++ t)%string.
    split; [|exact W].
    rewrite !string_app_assoc. reflexivity. }
  do 4 (split; [reflexivity|]).
  split; [|split].
  - intros Hs Hp. apply uuid_match_shape in Hs.
    rewrite (remove_snapshot_run pb m s Hp). unfold snapshot_block. now rewrite Hs.
  - intros Hs Hd Hv. apply uuid_match_shape in Hs.
    pose proof (create_snapshot_run pb m s t Hd Hv) as R. cbv zeta in R.
    unfold datacenter_block in R. rewrite Hs in R. cbn [fst snd app] in R.
    exists (fst (volume_block pb s t)), (snd (volume_block pb s t)).
    split; [exact R|].
    unfold volume_block. destruct (uuid_match t); cbn [snd In].
    + split; [tauto | intros i []].
    + split; [intros [H|[]]; discriminate | intros i [H|[]]; discriminate].
  - intros Hs Hd Hv. apply uuid_match_shape in Hs.
    pose proof (create_snapshot_run pb m t s Hd Hv) as R. cbv zeta in R.
    unfold volume_block in R. rewrite Hs in R. cbn [fst snd app] in R.
    exists (fst (datacenter_block pb t)), (snd (datacenter_block pb t)).
    split; [exact R|].
    unfold datacenter_block. destruct (uuid_match t); cbn [snd In].
    + intros x [].
    + intros x [H|H]; [discriminate|].
      apply in_map_iff in H as [i [H _]]. discriminate.
Qed.

Lemma odd_name_shape : uuid_shape Example.odd_name.
Proof.
  exists "snapshot", "2016", "prod", "east", "nightly_copy", " of vol01".
  repeat first [reflexivity | apply conj].
Defined.

Lemma uuid_shaped_strings_are_taken_as_ids_witness :
  uuid_shape Example.odd_name
  /\ first_named Example.odd_name (Sdk.list_snapshots Example.pb)
     = Some {| Sdk.r_id := Example.snap2; Sdk.r_name := Example.odd_name |}
  /\ remove_snapshot Example.pb
       (Example.start [("snapshot", PyStr Example.odd_name)]) =
     (Ok (PyBool true),
      log (Example.start [("snapshot", PyStr Example.odd_name)])
          [EvRemoveSnapshot Example.odd_name]).
Proof.
  split; [exact odd_name_shape|]. split; [reflexivity|].
  destruct (uuid_shaped_strings_are_taken_as_ids Example.pb
              (Example.start [("snapshot", PyStr Example.odd_name)])
              Example.odd_name EmptyString)
    as (_ & _ & _ & _ & _ & _ & H & _).
  apply H; [exact odd_name_shape | reflexivity].
Defined.

(** C2.  For the datacenter, the volume and the snapshot alike: a string
    that does not match the pattern makes the module call the matching
    list operation, and the id of the first listed resource that carries
    the string as its name goes to the lifecycle call in its place; a
    string that matches goes to the lifecycle call unchanged.  (A
    datacenter's name is the one [get_datacenter] reports for the listed
    id.) *)
Theorem names_resolve_to_the_first_listed_id
    (pb : Sdk.service) (m : machine) (datacenter volume snapshot : string) :
  (dict_get "datacenter" (params m) = PyStr datacenter ->
   dict_get "volume" (params m) = PyStr volume ->
   exists d v calls,
     create_snapshot pb m =
     (Ok (Sdk.create_snapshot pb d v (dict_get "snapshot_name" (params m))
            (dict_get "description" (params m))),
      log m (calls ++ [EvCreateSnapshot d v (dict_get "snapshot_name" (params m))
                         (dict_get "description" (params m))]))
     /\ (uuid_match datacenter = true ->
         d = datacenter /\ ~ In EvListDatacenters calls)
     /\ (uuid_match datacenter = false ->
         In EvListDatacenters calls
         /\ forall r, first_named datacenter (datacenters_named pb) = Some r ->
                      d = Sdk.r_id r)
     /\ (uuid_match volume = true ->
         v = volume /\ forall x, ~ In (EvListVolumes x) calls)
     /\ (uuid_match volume = false ->
         In (EvListVolumes d) calls
         /\ forall r, first_named volume (Sdk.list_volumes pb d) = Some r ->
                      v = Sdk.r_id r))
  /\ (dict_get "snapshot" (params m) = PyStr snapshot ->
      exists s calls,
        remove_snapshot pb m =
        (Ok (Sdk.remove_snapshot pb s), log m (calls ++ [EvRemoveSnapshot s]))
        /\ (uuid_match snapshot = true -> s = snapshot /\ calls = [])
        /\ (uuid_match snapshot = false ->
            calls = [EvListSnapshots]
            /\ forall r, first_named snapshot (Sdk.list_snapshots pb) = Some r ->
                         s = Sdk.r_id r)).
Proof.
  split.
  - intros Hd Hv.
    pose proof (create_snapshot_run pb m datacenter volume Hd Hv) as R. cbv zeta in R.
    exists (fst (datacenter_block pb datacenter)),
           (fst (volume_block pb (fst (datacenter_block pb datacenter)) volume)),
           (snd (datacenter_block pb datacenter)
            ++ snd (volume_block pb (fst (datacenter_block pb datacenter)) volume)).
    split; [rewrite R, <- app_assoc; reflexivity|].
    set (d := datacenter_block pb datacenter).
    assert (Hnd : forall x, ~ In (EvListVolumes x) (snd d)).
    { subst d. unfold datacenter_block. destruct (uuid_match datacenter); cbn [snd In].
      - intros x [].
      - intros x [H|H]; [discriminate|].
        apply in_map_iff in H as [i [H _]]. discriminate. }
    assert (Hnv : ~ In EvListDatacenters (snd (volume_block pb (fst d) volume))).
    { unfold volume_block. destruct (uuid_match volume); cbn [snd In].
      - tauto.
      - intros [H|[]]. discriminate. }
    repeat split.
    + subst d. unfold datacenter_block. now rewrite H.
    + intro Hin. apply in_app_or in Hin as [Hin|Hin]; [|now apply Hnv].
      subst d. unfold datacenter_block in Hin. rewrite H in Hin. destruct Hin.
    + apply in_or_app. left. subst d. unfold datacenter_block. rewrite H. now left.
    + intros r Hr. subst d. unfold datacenter_block. rewrite H. cbn [fst].
      now rewrite locate_by_name_first, Hr.
    + unfold volume_block. now rewrite H.
    + intros x Hin. apply in_app_or in Hin as [Hin|Hin]; [now apply (Hnd x)|].
      unfold volume_block in Hin. rewrite H in Hin. destruct Hin.
    + apply in_or_app. right. unfold volume_block. rewrite H. now left.
    + intros r Hr. unfold volume_block. rewrite H. cbn [fst].
      now rewrite locate_by_name_first, Hr.
  - intros Hs.
    pose proof (remove_snapshot_run pb m snapshot Hs) as R. cbv zeta in R.
    exists (fst (snapshot_block pb snapshot)), (snd (snapshot_block pb snapshot)).
    split; [exact R|].
    unfold snapshot_block.
    split; intro H; rewrite H; cbn [fst snd]; split; try reflexivity.
    intros r Hr. now rewrite locate_by_name_first, Hr.
Qed.

Lemma names_resolve_to_the_first_listed_id_witness :
  exists d v calls,
    create_snapshot Example.pb (Example.start Example.create_task) =
    (Ok (Sdk.create_snapshot Example.pb d v PyNone PyNone),
     log (Example.start Example.create_task)
         (calls ++ [EvCreateSnapshot d v PyNone PyNone]))
    /\ d = Example.dc2 /\ v = Example.vol1.
Proof.
  destruct (names_resolve_to_the_first_listed_id Example.pb
              (Example.start Example.create_task) "Tardis One" "vol01" "")
    as [H _].
  destruct (H eq_refl eq_refl) as [d [v [calls [R [_ [Hd [_ Hv]]]]]]].
  exists d, v, calls. split; [exact R|]. split.
  - apply (proj2 (Hd eq_refl)
             {| Sdk.r_id := Example.dc2; Sdk.r_name := "Tardis One" |}).
    reflexivity.
  - apply (proj2 (Hv eq_refl)
             {| Sdk.r_id := Example.vol1; Sdk.r_name := "vol01" |}).
    reflexivity.
Defined.

Lemma locate_by_name_miss (name : string) (items : list Sdk.resource) :
  (forall r, In r items -> Sdk.r_name r <> name) ->
  locate_by_name name items = name.
Proof.
  intro H. rewrite locate_by_name_first.
  now rewrite (proj2 (first_named_none name items) H).
Qed.

Lemma fetched_miss (pb : Sdk.service) (name : string) (items : list Sdk.resource) :
  (forall r, In r (map (as_named pb) items) -> Sdk.r_name r <> name) ->
  fetched pb name items = map Sdk.r_id items.
Proof.
  induction items as [|d rest IH]; intro H; simpl; [reflexivity|].
  destruct (String.eqb name (Sdk.r_name (Sdk.get_datacenter pb (Sdk.r_id d)))) eqn:E.
  - apply String.eqb_eq in E. exfalso.
    apply (H (as_named pb d)); [now left | now rewrite E].
  - f_equal. apply IH. intros r Hr. apply H. now right.
Qed.

(** C9.  A name that no listed resource carries is no error: the loop
    runs over every listed resource without a break, the variable keeps
    the string the user gave, and that string goes verbatim to the
    provider's [create_snapshot] or [remove_snapshot]. *)
Theorem unlisted_names_pass_verbatim
    (pb : Sdk.service) (m : machine) (datacenter volume snapshot : string) :
  (dict_get "datacenter" (params m) = PyStr datacenter ->
   dict_get "volume" (params m) = PyStr volume ->
   exists d v calls,
     create_snapshot pb m =
     (Ok (Sdk.create_snapshot pb d v (dict_get "snapshot_name" (params m))
            (dict_get "description" (params m))),
      log m (calls ++ [EvCreateSnapshot d v (dict_get "snapshot_name" (params m))
                         (dict_get "description" (params m))]))
     /\ ((forall r, In r (datacenters_named pb) -> Sdk.r_name r <> datacenter) ->
         d = datacenter
         /\ (uuid_match datacenter = false ->
             forall x, In x (Sdk.list_datacenters pb) ->
                       In (EvGetDatacenter (Sdk.r_id x)) calls))
     /\ ((forall r, In r (Sdk.list_volumes pb d) -> Sdk.r_name r <> volume) ->
         v = volume))
  /\ (dict_get "snapshot" (params m) = PyStr snapshot ->
      exists s calls,
        remove_snapshot pb m =
        (Ok (Sdk.remove_snapshot pb s), log m (calls ++ [EvRemoveSnapshot s]))
        /\ ((forall r, In r (Sdk.list_snapshots pb) -> Sdk.r_name r <> snapshot) ->
            s = snapshot)).
Proof.
  split.
  - intros Hd Hv.
    pose proof (create_snapshot_run pb m datacenter volume Hd Hv) as R. cbv zeta in R.
    exists (fst (datacenter_block pb datacenter)),
           (fst (volume_block pb (fst (datacenter_block pb datacenter)) volume)),
           (snd (datacenter_block pb datacenter)
            ++ snd (volume_block pb (fst (datacenter_block pb datacenter)) volume)).
    split; [rewrite R, <- app_assoc; reflexivity|].
    split.
    + intro Hmiss. unfold datacenter_block.
      destruct (uuid_match datacenter); cbn [fst snd].
      * split; [reflexivity | discriminate].
      * split; [now apply locate_by_name_miss|].
        intros _ x Hx. apply in_or_app. left. right.
        rewrite (fetched_miss pb datacenter _ Hmiss).
        apply in_map, in_map, Hx.
    + intro Hmiss. unfold volume_block at 1.
      destruct (uuid_match volume); cbn [fst]; [reflexivity|].
      now apply locate_by_name_miss.
  - intros Hs.
    pose proof (remove_snapshot_run pb m snapshot Hs) as R. cbv zeta in R.
    exists (fst (snapshot_block pb snapshot)), (snd (snapshot_block pb snapshot)).
    split; [exact R|].
    intro Hmiss. unfold snapshot_block.
    destruct (uuid_match snapshot); cbn [fst]; [reflexivity|].
    now apply locate_by_name_miss.
Qed.

Lemma unlisted_names_pass_verbatim_witness :
  exists s calls,
    remove_snapshot Example.pb (Example.start [("snapshot", PyStr "no such snapshot")]) =
    (Ok (PyBool true),
     log (Example.start [("snapshot", PyStr "no such snapshot")])
         (calls ++ [EvRemoveSnapshot s]))
    /\ s = "no such snapshot".
Proof.
  destruct (unlisted_names_pass_verbatim Example.pb
              (Example.start [("snapshot", PyStr "no such snapshot")])
              "" "" "no such snapshot")
    as [_ H].
  destruct (H eq_refl) as [s [calls [R Hs]]].
  exists s, calls. split; [exact R|].
  apply Hs. intros r [<-|[<-|[]]]; discriminate.
Defined.

(** ** The frame of a computation *)

Section Frame.

Context {ok : event -> bool}.

Lemma only_calls_ret {A : Type} (a : A) : only_calls ok (ret a).
Proof. intro m. exists []. now rewrite log_nil. Qed.

Lemma only_calls_raise {A : Type} (e : exn) : only_calls ok (@raise A e).
Proof. intro m. exists []. now rewrite log_nil. Qed.

Lemma only_calls_out_of_fuel {A : Type} : only_calls ok (@out_of_fuel A).
Proof. intro m. exists []. now rewrite log_nil. Qed.

Lemma only_calls_params_get (k : string) : only_calls ok (params_get k).
Proof. intro m. exists []. now rewrite log_nil. Qed.

Lemma only_calls_exit_json (kw : dict pyval) : only_calls ok (exit_json kw).
Proof. intro m. exists []. now rewrite log_nil. Qed.

Lemma only_calls_fail_json (msg : string) : only_calls ok (fail_json msg).
Proof. intro m. exists []. now rewrite log_nil. Qed.

Lemma only_calls_emit (e : event) : ok e = true -> only_calls ok (emit e).
Proof.
  intros He m. exists [e]. split; [reflexivity|]. simpl. now rewrite He.
Qed.

Lemma only_calls_bind {A B : Type} (c : M A) (k : A -> M B) :
  only_calls ok c -> (forall a, only_calls ok (k a)) -> only_calls ok (bind c k).
Proof.
  intros Hc Hk m. unfold bind.
  destruct (Hc m) as [c1 [E1 F1]].
  destruct (c m) as [[a|e|r|] m1]; simpl in E1; subst m1;
    try (exists c1; now split).
  destruct (Hk a (log m c1)) as [c2 [E2 F2]].
  exists (c1 ++ c2). rewrite E2, log_log. split; [reflexivity|].
  rewrite forallb_app, F1, F2. reflexivity.
Qed.

Lemma only_calls_when (b : bool) (c : M unit) :
  only_calls ok c -> only_calls ok (when b c).
Proof.
  intro H. destruct b; [exact H | apply only_calls_ret].
Qed.

Lemma only_calls_uuid_match_match (v : pyval) : only_calls ok (uuid_match_match v).
Proof.
  destruct v; first [apply only_calls_ret | apply only_calls_raise].
Qed.

End Frame.

Lemma only_calls_weaken {A : Type} (ok ok' : event -> bool) (c : M A) :
  (forall e, ok e = true -> ok' e = true) -> only_calls ok c -> only_calls ok' c.
Proof.
  intros Himp H m. destruct (H m) as [calls [E F]].
  exists calls. split; [exact E|].
  rewrite forallb_forall in *. auto.
Qed.

Create HintDb frame.
#[local] Hint Resolve only_calls_ret only_calls_raise only_calls_params_get
  only_calls_exit_json only_calls_fail_json only_calls_when
  only_calls_uuid_match_match : frame.
#[local] Hint Extern 1 (only_calls _ (emit _)) =>
  apply only_calls_emit; reflexivity : frame.
#[local] Hint Extern 2 (only_calls _ (bind _ _)) =>
  apply only_calls_bind; [|intro] : frame.
#[local] Hint Extern 3 (only_calls _ (if ?b then _ else _)) => destruct b : frame.

Lemma only_calls_locate_datacenter (pb : Sdk.service) (name : string)
    (items : list Sdk.resource) :
  only_calls is_resource_call (locate_datacenter pb name items).
Proof.
  induction items as [|d rest IH]; simpl.
  - auto with frame.
  - unfold Client.get_datacenter. auto 10 with frame.
Qed.

Lemma only_calls_create_snapshot (pb : Sdk.service) :
  only_calls is_resource_call (create_snapshot pb).
Proof.
  pose proof (only_calls_locate_datacenter pb) as L.
  unfold create_snapshot, Client.list_datacenters, Client.list_volumes,
    Client.create_snapshot.
  auto 20 with frame.
Qed.

Lemma only_calls_remove_snapshot (pb : Sdk.service) :
  only_calls is_resource_call (remove_snapshot pb).
Proof.
  unfold remove_snapshot, Client.list_snapshots, Client.remove_snapshot.
  auto 20 with frame.
Qed.

Lemma only_calls_main (svc : pyval -> pyval -> Sdk.service) :
  only_calls is_resource_call (main svc).
Proof.
  pose proof only_calls_create_snapshot as C.
  pose proof only_calls_remove_snapshot as R.
  unfold main. auto 30 with frame.
Qed.

(** ** [main] *)

Lemma truthy_str (s : string) : s <> EmptyString -> truthy (PyStr s) = true.
Proof.
  intro H. simpl. apply negb_true_iff, String.eqb_neq, H.
Qed.

Lemma main_present_run (svc : pyval -> pyval -> Sdk.service) (m : machine)
    (datacenter volume : string) :
  truthy (dict_get "subscription_user" (params m)) = true ->
  truthy (dict_get "subscription_password" (params m)) = true ->
  dict_get "state" (params m) = PyStr "present" ->
  dict_get "datacenter" (params m) = PyStr datacenter -> datacenter <> EmptyString ->
  dict_get "volume" (params m) = PyStr volume -> volume <> EmptyString ->
  let pb := svc (dict_get "subscription_user" (params m))
                (dict_get "subscription_password" (params m)) in
  let snapshot_name := dict_get "snapshot_name" (params m) in
  let description := dict_get "description" (params m) in
  let d := datacenter_block pb datacenter in
  let v := volume_block pb (fst d) volume in
  main svc m =
  (Exited (ExitJson
     [("snapshot", Sdk.create_snapshot pb (fst d) (fst v) snapshot_name description)]),
   log m (snd d ++ snd v
          ++ [EvCreateSnapshot (fst d) (fst v) snapshot_name description])).
Proof.
  intros Hu Hp Hst Hd Hdn Hv Hvn. cbv zeta.
  unfold main, bind, params_get, when, ret.
  rewrite Hu. cbn [negb]. rewrite Hp. cbn [negb]. rewrite Hst.
  cbn [eq_str String.eqb Ascii.eqb Bool.eqb].
  rewrite Hd, (truthy_str _ Hdn). cbn [negb].
  rewrite Hv, (truthy_str _ Hvn). cbn [negb].
  rewrite (create_snapshot_run _ m datacenter volume Hd Hv).
  reflexivity.
Qed.

Lemma main_absent_run (svc : pyval -> pyval -> Sdk.service) (m : machine)
    (snapshot : string) :
  truthy (dict_get "subscription_user" (params m)) = true ->
  truthy (dict_get "subscription_password" (params m)) = true ->
  dict_get "state" (params m) = PyStr "absent" ->
  dict_get "snapshot" (params m) = PyStr snapshot -> snapshot <> EmptyString ->
  let pb := svc (dict_get "subscription_user" (params m))
                (dict_get "subscription_password" (params m)) in
  let s := snapshot_block pb snapshot in
  main svc m =
  (Exited (ExitJson [("changed", Sdk.remove_snapshot pb (fst s))]),
   log m (snd s ++ [EvRemoveSnapshot (fst s)])).
Proof.
  intros Hu Hp Hst Hs Hsn. cbv zeta.
  unfold main, bind, params_get, when, ret.
  rewrite Hu. cbn [negb]. rewrite Hp. cbn [negb]. rewrite Hst.
  cbn [eq_str String.eqb Ascii.eqb Bool.eqb].
  rewrite Hs, (truthy_str _ Hsn). cbn [negb].
  rewrite (remove_snapshot_run _ m snapshot Hs).
  reflexivity.
Qed.

(** C1.  What [main] does, with [wait] true or not: it makes list,
    fetch, create and remove calls only.  It never sleeps and never asks
    for the status of a request, and the clock is where it was when the
    report goes out.  The first task of EXAMPLES, run with the default
    [wait], reports the snapshot right after the provider's
    [create_snapshot] answered. *)
Theorem main_reports_without_waiting :
  (forall svc m, exists calls,
      snd (main svc m) = log m calls
      /\ forallb is_resource_call calls = true)
  /\ dict_get "wait" (params (Example.start Example.create_task)) = PyBool true
  /\ main Example.ProfitBricksService (Example.start Example.create_task) =
     (Exited (ExitJson
        [("snapshot",
          PyDict [("requestId", "req-1"); ("datacenter", Example.dc2);
                  ("volume", Example.vol1)])]),
      log (Example.start Example.create_task)
          [EvListDatacenters; EvGetDatacenter Example.dc1;
           EvGetDatacenter Example.dc2; EvListVolumes Example.dc2;
           EvCreateSnapshot Example.dc2 Example.vol1 PyNone PyNone]).
Proof.
  split; [intros svc m; apply only_calls_main|].
  split; reflexivity.
Qed.

(** C5, as the code has it.  With both credentials given: for state
    'present' and a datacenter and a volume that are non-empty strings,
    the module calls the provider's [create_snapshot] on the resolved
    datacenter and volume and exits reporting the returned object as
    'snapshot'; for state 'absent' and a snapshot that is a non-empty
    string, it calls the provider's [remove_snapshot] on the resolved
    snapshot and exits reporting the returned value as 'changed'. *)
Theorem lifecycle_call_then_report
    (svc : pyval -> pyval -> Sdk.service) (m : machine)
    (datacenter volume snapshot : string) :
  truthy (dict_get "subscription_user" (params m)) = true ->
  truthy (dict_get "subscription_password" (params m)) = true ->
  let pb := svc (dict_get "subscription_user" (params m))
                (dict_get "subscription_password" (params m)) in
  let snapshot_name := dict_get "snapshot_name" (params m) in
  let description := dict_get "description" (params m) in
  let d := datacenter_block pb datacenter in
  let v := volume_block pb (fst d) volume in
  let s := snapshot_block pb snapshot in
  (dict_get "state" (params m) = PyStr "present" ->
   dict_get "datacenter" (params m) = PyStr datacenter -> datacenter <> EmptyString ->
   dict_get "volume" (params m) = PyStr volume -> volume <> EmptyString ->
   main svc m =
   (Exited (ExitJson
      [("snapshot", Sdk.create_snapshot pb (fst d) (fst v) snapshot_name description)]),
    log m (snd d ++ snd v
           ++ [EvCreateSnapshot (fst d) (fst v) snapshot_name description])))
  /\ (dict_get "state" (params m) = PyStr "absent" ->
      dict_get "snapshot" (params m) = PyStr snapshot -> snapshot <> EmptyString ->
      main svc m =
      (Exited (ExitJson [("changed", Sdk.remove_snapshot pb (fst s))]),
       log m (snd s ++ [EvRemoveSnapshot (fst s)]))).
Proof.
  intros Hu Hp. cbv zeta. split.
  - intros. now apply main_present_run.
  - intros. now apply main_absent_run.
Qed.

Lemma lifecycle_call_then_report_witness :
  main Example.ProfitBricksService (Example.start Example.remove_task) =
  (Exited (ExitJson [("changed", PyBool true)]),
   log (Example.start Example.remove_task)
       [EvListSnapshots; EvRemoveSnapshot Example.snap1])
  /\ creates_and_reports Example.ProfitBricksService
       (Example.start Example.create_task).
Proof.
  split.
  - apply (proj2 (lifecycle_call_then_report Example.ProfitBricksService
                    (Example.start Example.remove_task)
                    "" "" "my super snapshot" eq_refl eq_refl));
      [reflexivity | reflexivity | discriminate].
  - eexists _, _, _, _, _, _.
    rewrite <- app_assoc.
    apply (proj1 (lifecycle_call_then_report Example.ProfitBricksService
                    (Example.start Example.create_task)
                    "Tardis One" "vol01" "" eq_refl eq_refl));
      [reflexivity | reflexivity | discriminate | reflexivity | discriminate].
Defined.

(** C5 as stated fails: a task with state 'present' that gives no
    credentials is refused before any call to the provider. *)
Lemma present_without_credentials_is_refused :
  let m := Example.start [ ("datacenter", PyStr "Tardis One");
                           ("volume", PyStr "vol01");
                           ("state", PyStr "present") ] in
  dict_get "state" (params m) = PyStr "present"
  /\ main Example.ProfitBricksService m =
     (Exited (FailJson "subscription_user parameter is required"), m)
  /\ ~ creates_and_reports Example.ProfitBricksService m.
Proof.
  cbv zeta. split; [reflexivity|].
  split; [reflexivity|].
  intros (pb & d & v & n & desc & calls & H).
  discriminate H.
Qed.

(** C10.  For a state that is neither 'present' nor 'absent', [main]
    makes no call to the provider; once the credential checks have
    passed it calls neither [exit_json] nor [fail_json] and returns
    with nothing reported. *)
Theorem other_states_fall_through
    (svc : pyval -> pyval -> Sdk.service) (m : machine) :
  eq_str (dict_get "state" (params m)) "absent" = false ->
  eq_str (dict_get "state" (params m)) "present" = false ->
  snd (main svc m) = m
  /\ (forall kwargs, fst (main svc m) <> Exited (ExitJson kwargs))
  /\ (truthy (dict_get "subscription_user" (params m)) = true ->
      truthy (dict_get "subscription_password" (params m)) = true ->
      main svc m = (Ok tt, m)).
Proof.
  intros Ha Hp.
  unfold main, bind, params_get, when, ret, fail_json.
  destruct (truthy (dict_get "subscription_user" (params m))); cbn [negb].
  - destruct (truthy (dict_get "subscription_password" (params m))); cbn [negb].
    + rewrite Ha, Hp. cbn [fst snd].
      repeat split; intros; discriminate.
    + cbn [fst snd]. repeat split; intros; discriminate.
  - cbn [fst snd]. repeat split; intros; discriminate.
Qed.

Lemma other_states_fall_through_witness :
  main Example.ProfitBricksService
    (Example.start (Example.credentials ++ [("state", PyStr "restored")])) =
  (Ok tt, Example.start (Example.credentials ++ [("state", PyStr "restored")])).
Proof.
  apply (other_states_fall_through Example.ProfitBricksService
           (Example.start (Example.credentials ++ [("state", PyStr "restored")]))
           eq_refl eq_refl);
    reflexivity.
Defined.

(** C7.  [create_snapshot], [remove_snapshot] and [main] leave
    [module.params] as they found it, whatever the parameters hold and
    however the run ends; all they add to the world is calls to the
    provider's client. *)
Theorem params_are_read_only
    (svc : pyval -> pyval -> Sdk.service) (pb : Sdk.service) (m : machine) :
  (params (snd (create_snapshot pb m)) = params m
   /\ exists calls, trace (snd (create_snapshot pb m)) = trace m ++ calls
                    /\ forallb is_sdk_call calls = true)
  /\ (params (snd (remove_snapshot pb m)) = params m
      /\ exists calls, trace (snd (remove_snapshot pb m)) = trace m ++ calls
                       /\ forallb is_sdk_call calls = true)
  /\ (params (snd (main svc m)) = params m
      /\ exists calls, trace (snd (main svc m)) = trace m ++ calls
                       /\ forallb is_sdk_call calls = true).
Proof.
  assert (W : forall e, is_resource_call e = true -> is_sdk_call e = true).
  { intros e H. unfold is_resource_call in H. now apply andb_true_iff in H. }
  pose proof (only_calls_weaken _ _ _ W (only_calls_create_snapshot pb) m)
    as [c1 [E1 F1]].
  pose proof (only_calls_weaken _ _ _ W (only_calls_remove_snapshot pb) m)
    as [c2 [E2 F2]].
  pose proof (only_calls_weaken _ _ _ W (only_calls_main svc) m)
    as [c3 [E3 F3]].
  rewrite E1, E2, E3. cbn [log params trace].
  repeat split; eauto.
Qed.

(** ** The polling loop *)

Section Loop.

Variable pb : Sdk.service.
Variables (request_id msg : string) (promise_items : list (string * string)).
Hypothesis has_request_id : lookup "requestId" promise_items = Some request_id.

Lemma iteration_fields (m : machine) :
  params (iteration pb request_id m) = params m
  /\ oversleep (iteration pb request_id m) = oversleep m
  /\ sleeps (iteration pb request_id m) = S (sleeps m)
  /\ polls (iteration pb request_id m) = S (polls m)
  /\ (clock (iteration pb request_id m) ==
      clock m + 5 + oversleep m (sleeps m) + Sdk.latency pb (polls m))%Q
  /\ trace (iteration pb request_id m) =
     trace m ++ [EvSleep 5; EvGetRequest request_id (status_at pb request_id m 0)].
Proof.
  unfold iteration, status_at, bind, time_sleep, Client.get_request. cbn.
  rewrite Nat.add_0_r, <- app_assoc.
  repeat split; reflexivity.
Qed.

Lemma after_succ (k : nat) (m : machine) :
  after pb request_id (S k) m = after pb request_id k (iteration pb request_id m).
Proof. unfold after. apply Nat.iter_succ_r. Qed.

Lemma status_at_succ (k : nat) (m : machine) :
  status_at pb request_id m (S k) = status_at pb request_id (iteration pb request_id m) k.
Proof.
  unfold status_at. destruct (iteration_fields m) as (_ & _ & _ & -> & _).
  f_equal. lia.
Qed.

(** One evaluation of the loop condition and, when it holds, of the body. *)
Lemma wait_loop_step (fuel : nat) (deadline : Q) (m : machine) :
  wait_loop (S fuel) pb (PyDict promise_items) deadline msg m =
  if Qlt_le_dec (clock m) deadline then
    if String.eqb (status_at pb request_id m 0) "DONE" then
      (Ok tt, iteration pb request_id m)
    else if String.eqb (status_at pb request_id m 0) "FAILED" then
      (Raised (Exception (failed_message msg request_id)), iteration pb request_id m)
    else wait_loop fuel pb (PyDict promise_items) deadline msg (iteration pb request_id m)
  else (Raised (Exception (timeout_message msg request_id)), m).
Proof.
  cbn [wait_loop]. unfold bind at 1. unfold time_time at 1.
  destruct (Qlt_le_dec (clock m) deadline) as [Hlt|Hge].
  - unfold subscript. rewrite has_request_id.
    unfold iteration, status_at, bind, time_sleep, Client.get_request, ret, raise.
    cbn [fst snd polls]. rewrite Nat.add_0_r.
    destruct (String.eqb (Sdk.get_request pb request_id (polls m)) "DONE");
      [reflexivity|].
    destruct (String.eqb (Sdk.get_request pb request_id (polls m)) "FAILED");
      reflexivity.
  - unfold subscript. rewrite has_request_id. reflexivity.
Qed.

(** The loop runs some number [n] of turns, at most [j] when the
    deadline has passed [j] turns on; every turn starts before the
    deadline and only the last status can be terminal. *)
Lemma wait_loop_run (deadline : Q) (j : nat) :
  forall (fuel : nat) (m : machine),
    (deadline <= clock (after pb request_id j m))%Q ->
    (j < fuel)%nat ->
    exists n,
      (n <= j)%nat
      /\ wait_loop fuel pb (PyDict promise_items) deadline msg m =
         (verdict msg request_id (last_status pb request_id m n),
          after pb request_id n m)
      /\ (forall k, (k < n)%nat -> (clock (after pb request_id k m) < deadline)%Q)
      /\ (forall k, (S k < n)%nat -> terminal (status_at pb request_id m k) = false)
      /\ (gave_up (last_status pb request_id m n) = true ->
          (deadline <= clock (after pb request_id n m))%Q).
Proof.
  induction j as [|j IH]; intros fuel m Hd Hf.
  - destruct fuel as [|fuel]; [lia|].
    rewrite wait_loop_step.
    destruct (Qlt_le_dec (clock m) deadline) as [Hlt|Hge].
    { exfalso. change (after pb request_id 0 m) with m in Hd. lra. }
    exists 0%nat. cbn.
    repeat split; try (intros; lia); auto.
  - destruct fuel as [|fuel]; [lia|].
    rewrite wait_loop_step.
    destruct (Qlt_le_dec (clock m) deadline) as [Hlt|Hge].
    2:{ exists 0%nat. cbn. repeat split; try (intros; lia); auto. }
    destruct (String.eqb (status_at pb request_id m 0) "DONE") eqn:Ed.
    { exists 1%nat. cbn [last_status verdict gave_up after Nat.iter]. rewrite Ed.
      unfold terminal. rewrite Ed. cbn.
      repeat split; try (intros; lia); try discriminate.
      intros k Hk. assert (k = 0)%nat as -> by lia. exact Hlt. }
    destruct (String.eqb (status_at pb request_id m 0) "FAILED") eqn:Ef.
    { exists 1%nat. cbn [last_status verdict gave_up after Nat.iter]. rewrite Ed, Ef.
      unfold terminal. rewrite Ed, Ef. cbn.
      repeat split; try (intros; lia); try discriminate.
      intros k Hk. assert (k = 0)%nat as -> by lia. exact Hlt. }
    destruct (IH fuel (iteration pb request_id m)) as (n & Hn & Hrun & Hbefore & Hmid & Hup).
    + now rewrite <- after_succ.
    + lia.
    + exists (S n). rewrite Hrun, after_succ.
      split; [lia|]. split.
      * f_equal. destruct n as [|n]; cbn [last_status].
        -- cbn [verdict]. now rewrite Ed, Ef.
        -- now rewrite status_at_succ.
      * split; [|split].
        -- intros [|k] Hk; [exact Hlt|]. rewrite after_succ. apply Hbefore. lia.
        -- intros [|k] Hk.
           ++ unfold terminal. now rewrite Ed, Ef.
           ++ rewrite status_at_succ. apply Hmid. lia.
        -- destruct n as [|n]; cbn [last_status gave_up].
           ++ intros _. apply Hup. reflexivity.
           ++ rewrite status_at_succ. exact Hup.
Qed.

End Loop.

(** ** The machine after [n] turns *)

Lemma flat_map_seq_shift {A : Type} (f : nat -> list A) (a n : nat) :
  flat_map f (seq (S a) n) = flat_map (fun k => f (S k)) (seq a n).
Proof.
  revert a. induction n as [|n IH]; intro a; simpl; [reflexivity|].
  now rewrite IH.
Qed.

Lemma skipn_past {A : Type} (a b : list A) : skipn (List.length a) (a ++ b) = b.
Proof.
  induction a as [|x a IH]; simpl; [reflexivity | exact IH].
Qed.

Lemma after_fields (pb : Sdk.service) (request_id : string) (n : nat) :
  forall m,
    params (after pb request_id n m) = params m
    /\ sleeps (after pb request_id n m) = (sleeps m + n)%nat
    /\ polls (after pb request_id n m) = (polls m + n)%nat
    /\ trace (after pb request_id n m) =
       trace m ++ flat_map (fun k => [EvSleep 5;
                                      EvGetRequest request_id
                                        (status_at pb request_id m k)])
                           (seq 0 n).
Proof.
  induction n as [|n IH]; intro m.
  - cbn. rewrite !Nat.add_0_r, app_nil_r. now repeat split.
  - rewrite after_succ.
    destruct (IH (iteration pb request_id m)) as (Hp & Hs & Hq & Ht).
    destruct (iteration_fields pb request_id m) as (Ip & _ & Is & Iq & _ & It).
    rewrite Hp, Hs, Hq, Ht, Ip, Is, Iq, It.
    repeat split; try lia.
    rewrite <- app_assoc. f_equal.
    cbn [seq flat_map]. rewrite flat_map_seq_shift. cbn [app]. do 2 f_equal.
    apply flat_map_ext. intro k. now rewrite status_at_succ.
Qed.

Lemma polled_turns (request_id : string) (st : nat -> string) (l : list nat) :
  polled (flat_map (fun k => [EvSleep 5; EvGetRequest request_id (st k)]) l) = map st l.
Proof.
  induction l as [|k l IH]; simpl; [reflexivity | now rewrite IH].
Qed.

Lemma new_calls_after (pb : Sdk.service) (request_id : string) (n : nat) (m : machine) :
  new_calls m (after pb request_id n m) =
  flat_map (fun k => [EvSleep 5;
                      EvGetRequest request_id (status_at pb request_id m k)])
           (seq 0 n).
Proof.
  unfold new_calls. destruct (after_fields pb request_id n m) as (_ & _ & _ & ->).
  apply skipn_past.
Qed.

(** ** The bound on the number of turns *)

Lemma ceiling_covers (w : Q) :
  (w <= 5 * inject_Z (Z.of_nat (Z.to_nat (Qceiling (w / 5)))))%Q.
Proof.
  pose proof (Qle_ceiling (w / 5)) as H.
  assert (Hz : (Qceiling (w / 5) <= Z.of_nat (Z.to_nat (Qceiling (w / 5))))%Z) by lia.
  rewrite Zle_Qle in Hz.
  assert (Hw : (w / 5 <= inject_Z (Z.of_nat (Z.to_nat (Qceiling (w / 5)))))%Q)
    by (eapply Qle_trans; eassumption).
  set (c := inject_Z (Z.of_nat (Z.to_nat (Qceiling (w / 5))))) in *.
  clearbody c. clear H Hz.
  unfold Qdiv in Hw. change (/ 5)%Q with (1 # 5)%Q in Hw. lra.
Qed.

(** A promise either carries a request id or cannot be asked for one. *)
Lemma promise_cases (promise : pyval) :
  (exists items request_id,
      promise = PyDict items /\ lookup "requestId" items = Some request_id)
  \/ (exists e, subscript promise "requestId" = raise e).
Proof.
  destruct promise as [| b | z | s | items]; try (right; eexists; reflexivity).
  destruct (lookup "requestId" items) as [request_id|] eqn:E.
  - left. now exists items, request_id.
  - right. exists (KeyError "requestId"). unfold subscript. now rewrite E.
Qed.

Lemma wait_loop_no_request_id (pb : Sdk.service) (promise : pyval) (e : exn)
    (deadline : Q) (msg : string) (fuel : nat) (m : machine) :
  subscript promise "requestId" = raise e ->
  wait_loop (S fuel) pb promise deadline msg m =
  if Qlt_le_dec (clock m) deadline
  then (Raised e, snd (time_sleep 5 m))
  else (Raised e, m).
Proof.
  intro He. cbn [wait_loop]. unfold bind at 1. unfold time_time at 1.
  rewrite He.
  destruct (Qlt_le_dec (clock m) deadline); reflexivity.
Qed.

(** How the clock moves over the turns. *)

Lemma after_oversleep (pb : Sdk.service) (request_id : string) (n : nat) (m : machine) :
  oversleep (after pb request_id n m) = oversleep m.
Proof.
  induction n as [|n IH]; [reflexivity|].
  change (after pb request_id (S n) m)
    with (iteration pb request_id (after pb request_id n m)).
  destruct (iteration_fields pb request_id (after pb request_id n m))
    as (_ & -> & _).
  exact IH.
Qed.

Lemma after_last_turn (pb : Sdk.service) (request_id : string) (n : nat) (m : machine) :
  (clock (after pb request_id (S n) m) ==
   clock (after pb request_id n m) + 5
   + oversleep m (sleeps m + n) + Sdk.latency pb (polls m + n))%Q.
Proof.
  change (after pb request_id (S n) m)
    with (iteration pb request_id (after pb request_id n m)).
  destruct (iteration_fields pb request_id (after pb request_id n m))
    as (_ & _ & _ & _ & -> & _).
  rewrite after_oversleep.
  destruct (after_fields pb request_id n m) as (_ & -> & -> & _).
  reflexivity.
Qed.

Lemma after_clock_lower (pb : Sdk.service) (request_id : string) (n : nat) (m : machine) :
  time_passes pb m ->
  (clock m + 5 * inject_Z (Z.of_nat n) <= clock (after pb request_id n m))%Q.
Proof.
  intros (Ho & Hl & _). induction n as [|n IH].
  - change (inject_Z (Z.of_nat 0)) with 0%Q.
    change (after pb request_id 0 m) with m. lra.
  - rewrite after_last_turn.
    rewrite Nat2Z.inj_succ, <- Z.add_1_r, inject_Z_plus.
    change (inject_Z 1) with 1%Q.
    specialize (Ho (sleeps m + n)%nat). specialize (Hl (polls m + n)%nat). lra.
Qed.

Lemma after_clock_exact (pb : Sdk.service) (request_id : string) (n : nat) (m : machine) :
  (forall k, oversleep m k == 0)%Q ->
  (forall k, Sdk.latency pb k == 0)%Q ->
  (clock (after pb request_id n m) == clock m + 5 * inject_Z (Z.of_nat n))%Q.
Proof.
  intros Ho Hl. induction n as [|n IH].
  - change (inject_Z (Z.of_nat 0)) with 0%Q.
    change (after pb request_id 0 m) with m. lra.
  - rewrite after_last_turn, IH, Ho, Hl.
    rewrite Nat2Z.inj_succ, <- Z.add_1_r, inject_Z_plus.
    change (inject_Z 1) with 1%Q. lra.
Qed.

(** ** [_wait_for_completion] on a promise that carries a request id *)

(** On a truthy promise the helper is the loop, run with the deadline
    it computes first. *)
Lemma wait_for_completion_loop (pb : Sdk.service) (m : machine) (promise : pyval)
    (msg : string) (wait_timeout : Q) (fuel : nat) :
  truthy promise = true ->
  _wait_for_completion fuel pb promise wait_timeout msg m =
  wait_loop fuel pb promise (deadline_of m wait_timeout) msg m.
Proof.
  intro Ht. unfold _wait_for_completion. now rewrite Ht.
Qed.

(** With the clock keeping time, the deadline has passed after
    ceil(wait_timeout / 5) turns. *)
Lemma deadline_reached (pb : Sdk.service) (m : machine) (request_id : string)
    (wait_timeout : Q) :
  time_passes pb m ->
  (deadline_of m wait_timeout <=
   clock (after pb request_id (Z.to_nat (Qceiling (wait_timeout / 5))) m))%Q.
Proof.
  intros Ht. pose proof Ht as (_ & _ & Hf). apply Hf.
  pose proof (after_clock_lower pb request_id
                (Z.to_nat (Qceiling (wait_timeout / 5))) m Ht) as Hlow.
  pose proof (ceiling_covers wait_timeout) as Hc.
  set (c := inject_Z (Z.of_nat (Z.to_nat (Qceiling (wait_timeout / 5))))) in *.
  clearbody c. lra.
Qed.

Lemma wait_for_completion_run (pb : Sdk.service) (m : machine)
    (items : list (string * string)) (request_id msg : string)
    (wait_timeout : Q) (fuel : nat) :
  lookup "requestId" items = Some request_id ->
  time_passes pb m ->
  (Z.to_nat (Qceiling (wait_timeout / 5)) < fuel)%nat ->
  exists n,
    (n <= Z.to_nat (Qceiling (wait_timeout / 5)))%nat
    /\ _wait_for_completion fuel pb (PyDict items) wait_timeout msg m =
       (verdict msg request_id (last_status pb request_id m n),
        after pb request_id n m)
    /\ (forall k, (k < n)%nat ->
                  (clock (after pb request_id k m) < deadline_of m wait_timeout)%Q)
    /\ (forall k, (S k < n)%nat -> terminal (status_at pb request_id m k) = false)
    /\ (gave_up (last_status pb request_id m n) = true ->
        (deadline_of m wait_timeout <= clock (after pb request_id n m))%Q).
Proof.
  intros Hid Ht Hf.
  rewrite wait_for_completion_loop
    by (destruct items; [discriminate | reflexivity]).
  exact (wait_loop_run pb request_id msg items Hid
           (deadline_of m wait_timeout) _ fuel m
           (deadline_reached pb m request_id wait_timeout Ht) Hf).
Qed.

Lemma in_statuses (f : nat -> string) (n : nat) (st : string) :
  In st (map f (seq 0 n)) <-> exists k, (k < n)%nat /\ f k = st.
Proof.
  rewrite in_map_iff. split.
  - intros [k [E Hk]]. apply in_seq in Hk. exists k. split; [lia | exact E].
  - intros [k [Hk E]]. exists k. split; [exact E | apply in_seq; lia].
Qed.

Lemma map_seq_from (f : nat -> string) (a n : nat) :
  map (fun k => f (a + k)%nat) (seq 0 n) = map f (seq a n).
Proof.
  revert a. induction n as [|n IH]; intro a; [reflexivity|].
  cbn [seq map]. rewrite Nat.add_0_r. f_equal.
  rewrite <- seq_shift, map_map, <- IH.
  apply map_ext. intro k. f_equal. lia.
Qed.

Lemma messages_differ (msg request_id : string) :
  failed_message msg request_id <> timeout_message msg request_id.
Proof.
  unfold failed_message, timeout_message. cbn [append]. discriminate.
Qed.

Lemma verdict_timeout (msg request_id : string) (last : option string) :
  verdict msg request_id last = Raised (Exception (timeout_message msg request_id)) ->
  gave_up last = true.
Proof.
  destruct last as [st|]; [|reflexivity]. cbn [verdict gave_up]. unfold terminal.
  destruct (String.eqb st "DONE"); [discriminate|].
  destruct (String.eqb st "FAILED"); [|reflexivity].
  intro H. exfalso. apply (messages_differ msg request_id). congruence.
Qed.

Lemma after_clock_mono (pb : Sdk.service) (request_id : string) (a b : nat)
    (m : machine) :
  time_passes pb m -> (a <= b)%nat ->
  (clock (after pb request_id a m) <= clock (after pb request_id b m))%Q.
Proof.
  intros (Ho & Hl & _) Hab. induction b as [|b IH].
  - assert (a = 0)%nat as -> by lia. apply Qle_refl.
  - destruct (Nat.eq_dec a (S b)) as [->|Hne]; [apply Qle_refl|].
    assert (Hle : (a <= b)%nat) by lia. specialize (IH Hle).
    rewrite after_last_turn.
    specialize (Ho (sleeps m + b)%nat). specialize (Hl (polls m + b)%nat). lra.
Qed.

(** The turns the loop makes are exactly the turns that are begun. *)
Lemma wait_for_completion_turns (pb : Sdk.service) (m : machine)
    (items : list (string * string)) (request_id msg : string)
    (wait_timeout : Q) (fuel : nat) :
  lookup "requestId" items = Some request_id ->
  time_passes pb m ->
  (Z.to_nat (Qceiling (wait_timeout / 5)) < fuel)%nat ->
  exists n,
    _wait_for_completion fuel pb (PyDict items) wait_timeout msg m =
    (verdict msg request_id (last_status pb request_id m n),
     after pb request_id n m)
    /\ (forall k, turn_begins pb request_id m (deadline_of m wait_timeout) k
                  <-> (k < n)%nat)
    /\ (forall k, (S k < n)%nat -> terminal (status_at pb request_id m k) = false)
    /\ (gave_up (last_status pb request_id m n) = true ->
        (deadline_of m wait_timeout <= clock (after pb request_id n m))%Q).
Proof.
  intros Hid Ht Hf.
  destruct (wait_for_completion_run pb m items request_id msg wait_timeout fuel
              Hid Ht Hf) as (n & _ & Hrun & Hbefore & Hmid & Hup).
  exists n. split; [exact Hrun|]. split; [|split; [exact Hmid | exact Hup]].
  intro k. split.
  - intros [Hearlier Hclock].
    destruct (Nat.lt_ge_cases k n) as [Hlt|Hge]; [exact Hlt|]. exfalso.
    destruct (gave_up (last_status pb request_id m n)) eqn:Hg.
    + specialize (Hup eq_refl).
      pose proof (after_clock_mono pb request_id n k m Ht Hge) as Hmono. lra.
    + destruct n as [|n']; [discriminate|]. cbn [last_status gave_up] in Hg.
      rewrite Hearlier in Hg by lia. discriminate.
  - intro Hlt. split.
    + intros j Hj. apply Hmid. lia.
    + now apply Hbefore.
Qed.

(** C3, as the code has it.  On a promise that carries a request id,
    and with the clock keeping time, the helper makes a turn, a sleep
    of 5 seconds and then one status request, for as long as the turn
    can begin: while the clock is before the deadline, the float sum of
    the start and [wait_timeout] formed before the loop, and no status
    so far was "DONE" or "FAILED".  The window is on the beginning of a
    turn, so the last status may arrive after the deadline.  The helper
    returns normally exactly when the
    status of a turn that began is "DONE", raises the failure exception
    exactly when it is "FAILED", and raises the timeout exception
    exactly when no turn that began got either; the deadline has passed
    by then.  The statuses it polled are those of the turns that began,
    in the provider's order.  On a falsy promise it returns at once and
    nothing is called. *)
Theorem wait_for_completion_outcomes (pb : Sdk.service) (m : machine)
    (items : list (string * string)) (request_id msg : string)
    (wait_timeout : Q) (fuel : nat) :
  lookup "requestId" items = Some request_id ->
  time_passes pb m ->
  (Z.to_nat (Qceiling (wait_timeout / 5)) < fuel)%nat ->
  let run := _wait_for_completion fuel pb (PyDict items) wait_timeout msg m in
  let begun := turn_begins pb request_id m (deadline_of m wait_timeout) in
  let seen := polled (new_calls m (snd run)) in
  (fst run = Ok tt <->
   exists k, begun k /\ status_at pb request_id m k = "DONE")
  /\ (fst run = Raised (Exception (failed_message msg request_id)) <->
      exists k, begun k /\ status_at pb request_id m k = "FAILED")
  /\ (fst run = Raised (Exception (timeout_message msg request_id)) <->
      forall k, begun k -> terminal (status_at pb request_id m k) = false)
  /\ (fst run = Raised (Exception (timeout_message msg request_id)) ->
      (deadline_of m wait_timeout <= clock (snd run))%Q)
  /\ (forall status,
        In status seen <-> exists k, begun k /\ status_at pb request_id m k = status)
  /\ seen = map (Sdk.get_request pb request_id) (seq (polls m) (List.length seen))
  /\ (forall promise, truthy promise = false ->
      _wait_for_completion fuel pb promise wait_timeout msg m = (Ok tt, m)).
Proof.
  intros Hid Ht Hf.
  destruct (wait_for_completion_turns pb m items request_id msg wait_timeout fuel
              Hid Ht Hf) as (n & Hrun & Hbegun & Hmid & Hup).
  cbv zeta. rewrite Hrun. cbn [fst snd].
  rewrite new_calls_after, polled_turns.
  (* a terminal status of a turn that began is the last status *)
  assert (Hlast : forall k, (k < n)%nat ->
                            terminal (status_at pb request_id m k) = true ->
                            last_status pb request_id m n
                            = Some (status_at pb request_id m k)).
  { intros k Hk Hterm. destruct n as [|n']; [lia|].
    destruct (Nat.eq_dec k n') as [->|Hne]; [reflexivity|].
    rewrite Hmid in Hterm by lia. discriminate. }
  assert (Hv : forall st,
             terminal st = true ->
             (exists k, turn_begins pb request_id m (deadline_of m wait_timeout) k
                        /\ status_at pb request_id m k = st)
             <-> last_status pb request_id m n = Some st).
  { intros st Hst. split.
    - intros [k [Hk Est]]. apply Hbegun in Hk.
      rewrite (Hlast k Hk) by now rewrite Est. now rewrite Est.
    - intro Hl. destruct n as [|n']; [discriminate|]. cbn [last_status] in Hl.
      injection Hl as Hl. exists n'. split; [apply Hbegun; lia | exact Hl]. }
  split; [|split; [|split; [|split; [|split; [|split]]]]].
  - rewrite (Hv "DONE" eq_refl).
    destruct (last_status pb request_id m n) as [st|]; cbn [verdict].
    + destruct (String.eqb_spec st "DONE") as [->|Hne].
      * now split.
      * split; [|intro H; injection H as H; contradiction].
        destruct (String.eqb st "FAILED"); discriminate.
    + split; discriminate.
  - rewrite (Hv "FAILED" eq_refl).
    destruct (last_status pb request_id m n) as [st|]; cbn [verdict].
    + destruct (String.eqb_spec st "DONE") as [->|Hne].
      * split; discriminate.
      * destruct (String.eqb_spec st "FAILED") as [->|Hnf].
        -- now split.
        -- split; [|intro H; injection H as H; contradiction].
           intro H. exfalso. apply (messages_differ msg request_id). congruence.
    + split; [|discriminate].
      intro H. exfalso. apply (messages_differ msg request_id). congruence.
  - split.
    + intros Hto k Hk. apply Hbegun in Hk.
      apply verdict_timeout in Hto.
      destruct (terminal (status_at pb request_id m k)) eqn:Hterm; [|reflexivity].
      rewrite (Hlast k Hk Hterm) in Hto. cbn [gave_up] in Hto.
      rewrite Hterm in Hto. discriminate.
    + intro Hall. destruct n as [|n']; [reflexivity|]. cbn [last_status verdict].
      assert (Hn : terminal (status_at pb request_id m n') = false)
        by (apply Hall, Hbegun; lia).
      unfold terminal in Hn. apply orb_false_iff in Hn as [-> ->]. reflexivity.
  - intro Hto. apply Hup. eapply verdict_timeout. exact Hto.
  - intro st. rewrite in_statuses. split.
    + intros [k [Hk Est]]. exists k. split; [now apply Hbegun | exact Est].
    + intros [k [Hk Est]]. exists k. split; [now apply Hbegun | exact Est].
  - rewrite length_map, length_seq. unfold status_at.
    apply (map_seq_from (Sdk.get_request pb request_id)).
  - intros promise Hfalse. unfold _wait_for_completion. now rewrite Hfalse.
Qed.

(** C4.  For every [wait_timeout] and whatever the provider answers, the
    loop ends: by returning or by raising.  With the clock keeping time
    it makes at most ceil(wait_timeout / 5) turns, each of one sleep and
    at most one status request; for a [wait_timeout] below zero that is
    no turn at all. *)
Theorem wait_loop_is_bounded (pb : Sdk.service) (m : machine) (promise : pyval)
    (msg : string) (wait_timeout : Q) (fuel : nat) :
  time_passes pb m ->
  (Z.to_nat (Qceiling (wait_timeout / 5)) < fuel)%nat ->
  let run := _wait_for_completion fuel pb promise wait_timeout msg m in
  (fst run = Ok tt \/ exists e, fst run = Raised e)
  /\ (sleeps m <= sleeps (snd run))%nat
  /\ (Z.of_nat (sleeps (snd run) - sleeps m) <= Z.max 0 (Qceiling (wait_timeout / 5)))%Z
  /\ (polls (snd run) - polls m <= sleeps (snd run) - sleeps m)%nat.
Proof.
  intros Ht Hf. cbv zeta.
  destruct (truthy promise) eqn:Etruthy.
  2:{ unfold _wait_for_completion. rewrite Etruthy. cbn [negb ret fst snd].
      split; [now left|]. split; [lia|]. split; lia. }
  destruct (promise_cases promise) as [(items & rid & -> & Hid) | [e He]].
  - destruct (wait_for_completion_run pb m items rid msg wait_timeout fuel
                Hid Ht Hf) as (n & Hn & Hrun & _).
    rewrite Hrun. cbn [fst snd].
    destruct (after_fields pb rid n m) as (_ & -> & -> & _).
    split.
    + destruct (last_status pb rid m n) as [st|]; cbn [verdict].
      * destruct (String.eqb st "DONE"); [now left|].
        destruct (String.eqb st "FAILED"); right; eexists; reflexivity.
      * right; eexists; reflexivity.
    + split; [lia|]. split; lia.
  - destruct fuel as [|fuel]; [lia|].
    rewrite (wait_for_completion_loop pb m promise msg wait_timeout (S fuel) Etruthy),
            (wait_loop_no_request_id pb promise e _ msg fuel m He).
    destruct (Qlt_le_dec (clock m) (deadline_of m wait_timeout)) as [Hlt|Hge];
      unfold time_sleep; cbn [fst snd sleeps polls].
    + split; [right; now exists e|]. split; [lia|].
      assert (Hpos : (0 < Z.to_nat (Qceiling (wait_timeout / 5)))%nat).
      { destruct (Z.to_nat (Qceiling (wait_timeout / 5))) eqn:E; [|lia].
        pose proof (deadline_reached pb m EmptyString wait_timeout Ht) as Hc.
        rewrite E in Hc. change (after pb EmptyString 0 m) with m in Hc. lra. }
      split; lia.
    + split; [right; now exists e|]. split; [lia|]. split; lia.
Qed.

(** C6.  The wait is flat.  The calls of the helper are its turns and
    nothing else, each turn one sleep of 5 seconds followed by one
    status request, so the sleep between two polls is always the same.
    A turn begins only before the one deadline, the float sum of the
    time the loop began and [wait_timeout], formed once before the loop.
    After a status that is neither "DONE" nor "FAILED" the loop goes
    on: it stops without such a status only once
    the deadline has passed, and then raises the timeout exception.  A
    "DONE" or "FAILED" status is the last one asked for: "DONE" returns,
    "FAILED" raises the failure exception and is not retried. *)
Theorem polling_is_flat (pb : Sdk.service) (m : machine)
    (items : list (string * string)) (request_id msg : string)
    (wait_timeout : Q) (fuel : nat) :
  lookup "requestId" items = Some request_id ->
  time_passes pb m ->
  (Z.to_nat (Qceiling (wait_timeout / 5)) < fuel)%nat ->
  let run := _wait_for_completion fuel pb (PyDict items) wait_timeout msg m in
  let deadline := deadline_of m wait_timeout in
  let n := (polls (snd run) - polls m)%nat in
  new_calls m (snd run) =
  flat_map (fun k => [EvSleep 5;
                      EvGetRequest request_id (status_at pb request_id m k)])
           (seq 0 n)
  /\ snd run = after pb request_id n m
  /\ (forall k, (k < n)%nat -> (clock (after pb request_id k m) < deadline)%Q)
  /\ (forall k, (S k < n)%nat -> terminal (status_at pb request_id m k) = false)
  /\ (forall k, (k < n)%nat -> status_at pb request_id m k = "FAILED" ->
                S k = n
                /\ fst run = Raised (Exception (failed_message msg request_id)))
  /\ (forall k, (k < n)%nat -> status_at pb request_id m k = "DONE" ->
                S k = n /\ fst run = Ok tt)
  /\ (n = 0%nat \/ terminal (status_at pb request_id m (n - 1)) = false ->
      (deadline <= clock (snd run))%Q
      /\ fst run = Raised (Exception (timeout_message msg request_id)))
  /\ (fst run = Raised (Exception (timeout_message msg request_id)) ->
      (deadline <= clock (snd run))%Q).
Proof.
  intros Hid Ht Hf.
  destruct (wait_for_completion_run pb m items request_id msg wait_timeout fuel
              Hid Ht Hf) as (n & _ & Hrun & Hbefore & Hmid & Hup).
  cbv zeta. rewrite Hrun. cbn [fst snd].
  destruct (after_fields pb request_id n m) as (_ & _ & Hp & _). rewrite Hp.
  replace (polls m + n - polls m)%nat with n by lia.
  assert (Hlast : forall k, (k < n)%nat ->
                            terminal (status_at pb request_id m k) = true ->
                            S k = n).
  { intros k Hk Hterm.
    destruct (Nat.eq_dec (S k) n) as [E|Hne]; [exact E|].
    rewrite Hmid in Hterm by lia. discriminate. }
  split; [apply new_calls_after|]. split; [reflexivity|].
  split; [exact Hbefore|]. split; [exact Hmid|].
  split; [|split; [|split]].
  - intros k Hk Est.
    assert (S k = n) as <- by (apply Hlast; [exact Hk | now rewrite Est]).
    split; [reflexivity|]. cbn [last_status verdict]. now rewrite Est.
  - intros k Hk Est.
    assert (S k = n) as <- by (apply Hlast; [exact Hk | now rewrite Est]).
    split; [reflexivity|]. cbn [last_status verdict]. now rewrite Est.
  - intro Hstop.
    assert (Hg : gave_up (last_status pb request_id m n) = true).
    { destruct n as [|n']; [reflexivity|]. cbn [last_status gave_up].
      destruct Hstop as [H0|Hnt]; [discriminate|].
      replace (S n' - 1)%nat with n' in Hnt by lia. now rewrite Hnt. }
    split; [exact (Hup Hg)|].
    destruct n as [|n']; [reflexivity|]. cbn [last_status verdict gave_up] in *.
    apply negb_true_iff in Hg. unfold terminal in Hg.
    apply orb_false_iff in Hg as [-> ->]. reflexivity.
  - intro Hv. apply Hup. eapply verdict_timeout. exact Hv.
Qed.

(** ** Concrete runs of the loop *)

Lemma time_passes_example (answer : nat -> string) (args : dict pyval) :
  time_passes Example.pb (Example.start args)
  /\ time_passes (Example.with_status answer) (Example.start args).
Proof.
  split;
    (split; [intro k; discriminate|];
     split; [intro k; discriminate | intros x y r k H; exact H]).
Defined.

Example wait_until_done :
  _wait_for_completion 200 Example.pb Example.promise 600 "create_snapshot"
    (Example.start []) =
  (Ok tt, after Example.pb "req-1" 3 (Example.start [])).
Proof. reflexivity. Qed.

Example wait_until_failed :
  let run := _wait_for_completion 200 Example.failing Example.promise 600
               "create_snapshot" (Example.start []) in
  fst run = Raised (Exception (failed_message "create_snapshot" "req-1"))
  /\ polled (trace (snd run)) = ["QUEUED"; "FAILED"].
Proof. split; reflexivity. Qed.

Example wait_until_timeout :
  let run := _wait_for_completion 4 Example.stuck Example.promise 12
               "create_snapshot" (Example.start []) in
  fst run = Raised (Exception (timeout_message "create_snapshot" "req-1"))
  /\ sleeps (snd run) = 3%nat
  /\ (clock (snd run) == 63 # 4)%Q.
Proof. repeat split. Qed.

Lemma wait_for_completion_outcomes_witness :
  fst (_wait_for_completion 4 Example.pb Example.promise 12 "create_snapshot"
         (Example.start [])) = Ok tt.
Proof.
  destruct (wait_for_completion_outcomes Example.pb (Example.start [])
              [("requestId", "req-1")] "req-1" "create_snapshot" 12 4
              eq_refl (proj1 (time_passes_example (fun _ => "DONE") []))
              (proj1 (Nat.ltb_lt 3 4) eq_refl))
    as [[_ H] _].
  apply H. exists 2%nat. split; [|reflexivity].
  split.
  - intros [|[|j]] Hj; [reflexivity | reflexivity | lia].
  - reflexivity.
Defined.

(** C3 as stated fails twice over.  With [wait_timeout] 12 the third
    status, "DONE", arrives at 15 seconds: no status seen within the 12
    seconds is "DONE" or "FAILED", and yet the helper returns normally,
    where C3 has it raise the timeout exception.  And a promise that is
    not empty but has no 'requestId' ends in a [KeyError], which is
    neither the normal return nor one of the two exceptions of C3. *)
Lemma done_after_the_deadline_still_returns :
  let m := Example.start [] in
  let run := _wait_for_completion 4 Example.pb Example.promise 12
               "create_snapshot" m in
  fst run = Ok tt
  /\ (clock (snd run) == 15)%Q
  /\ ~ observed_in_window Example.pb "req-1" m 12 "DONE"
  /\ ~ observed_in_window Example.pb "req-1" m 12 "FAILED"
  /\ fst (_wait_for_completion 4 Example.pb (PyDict [("id", "snap-1")]) 12
            "create_snapshot" m)
     = Raised (KeyError "requestId").
Proof.
  cbv zeta.
  assert (Hlate : forall k st,
             status_at Example.pb "req-1" (Example.start []) k = st ->
             (clock (after Example.pb "req-1" (S k) (Example.start []))
              <= clock (Example.start []) + 12)%Q ->
             st = "RUNNING").
  { intros k st Hst Hc. destruct k as [|[|k]]; [now subst | now subst |].
    exfalso.
    pose proof (after_clock_lower Example.pb "req-1" (S (S (S k))) (Example.start [])
                  (proj1 (time_passes_example (fun _ => "DONE") []))) as Hlow.
    change (clock (Example.start [])) with 0%Q in Hlow, Hc.
    rewrite !Nat2Z.inj_succ, <- !Z.add_1_r, !inject_Z_plus in Hlow.
    change (inject_Z 1) with 1%Q in Hlow.
    assert (H0 : (0 <= inject_Z (Z.of_nat k))%Q).
    { change 0%Q with (inject_Z 0). rewrite <- Zle_Qle. lia. }
    set (c := clock (after Example.pb "req-1" (S (S (S k))) (Example.start []))) in *.
    clearbody c. lra. }
  split; [reflexivity|]. split; [reflexivity|].
  split; [|split; [|reflexivity]].
  - intros [k [Hst Hc]]. specialize (Hlate k "DONE" Hst Hc). discriminate.
  - intros [k [Hst Hc]]. specialize (Hlate k "FAILED" Hst Hc). discriminate.
Qed.

Lemma wait_loop_is_bounded_witness :
  let run := _wait_for_completion 4 Example.stuck Example.promise 12
               "create_snapshot" (Example.start []) in
  (Z.of_nat (sleeps (snd run) - 0) <= 3)%Z.
Proof.
  destruct (wait_loop_is_bounded Example.stuck (Example.start [])
              Example.promise "create_snapshot" 12 4
              (proj2 (time_passes_example (fun _ => "RUNNING") []))
              (proj1 (Nat.ltb_lt 3 4) eq_refl))
    as (_ & _ & H & _).
  exact H.
Defined.

Lemma polling_is_flat_witness :
  let run := _wait_for_completion 200 Example.failing Example.promise 600
               "create_snapshot" (Example.start []) in
  new_calls (Example.start []) (snd run) =
  [EvSleep 5; EvGetRequest "req-1" "QUEUED"; EvSleep 5; EvGetRequest "req-1" "FAILED"]
  /\ fst run = Raised (Exception (failed_message "create_snapshot" "req-1")).
Proof.
  destruct (polling_is_flat Example.failing (Example.start [])
              [("requestId", "req-1")] "req-1" "create_snapshot" 600 200
              eq_refl
              (proj2 (time_passes_example
                        (fun k => if Nat.eqb k 1 then "FAILED" else "QUEUED") []))
              (proj1 (Nat.ltb_lt 120 200) eq_refl))
    as (Hcalls & _ & _ & _ & Hfailed & _).
  split; [exact Hcalls|].
  apply (Hfailed 1%nat); [apply Nat.ltb_lt|]; reflexivity.
Defined.

(** * Further properties of the code *)

(** ** The pattern, continued *)

Lemma string_length_app (a b : string) :
  String.length (a ++ b) = (String.length a + String.length b)%nat.
Proof.
  induction a as [|x a IH]; simpl; [reflexivity | now rewrite IH].
Qed.

Lemma string_app_empty (a : string) : (a ++ EmptyString)%string = a.
Proof.
  induction a as [|x a IH]; simpl; [reflexivity | now rewrite IH].
Qed.

Lemma hex_is_word (c : ascii) : is_hex c = true -> Re.is_word c = true.
Proof.
  destruct c as [[] [] [] [] [] [] [] []]; vm_compute; intro H;
    first [reflexivity | discriminate].
Qed.

Lemma hex_group_word (n : nat) (g : string) : hex_group n g -> word_group n g.
Proof.
  intros [Hl Hh]. split; [exact Hl|]. clear Hl.
  induction g as [|c g IH]; [reflexivity|].
  simpl in *. apply andb_true_iff in Hh as [Hc Hg].
  now rewrite (hex_is_word c Hc), IH.
Qed.

Lemma canonical_uuid_shape (s : string) : canonical_uuid s -> uuid_shape s.
Proof.
  intros (g1 & g2 & g3 & g4 & g5 & -> & H1 & H2 & H3 & H4 & H5).
  exists g1, g2, g3, g4, g5, EmptyString.
  rewrite string_app_empty.
  repeat first [reflexivity | apply hex_group_word; assumption | apply conj].
Qed.

(** X1.  Every UUID in its usual text form, in either case, matches
    the pattern; given as the snapshot, or as the datacenter and the
    volume, it reaches the provider as it is and nothing is listed. *)
Theorem canonical_uuids_are_taken_as_ids
    (pb : Sdk.service) (m : machine) (s t : string) :
  canonical_uuid s ->
  uuid_match s = true
  /\ (dict_get "snapshot" (params m) = PyStr s ->
      remove_snapshot pb m =
      (Ok (Sdk.remove_snapshot pb s), log m [EvRemoveSnapshot s]))
  /\ (canonical_uuid t ->
      dict_get "datacenter" (params m) = PyStr s ->
      dict_get "volume" (params m) = PyStr t ->
      create_snapshot pb m =
      (Ok (Sdk.create_snapshot pb s t (dict_get "snapshot_name" (params m))
             (dict_get "description" (params m))),
       log m [EvCreateSnapshot s t (dict_get "snapshot_name" (params m))
                (dict_get "description" (params m))])).
Proof.
  intro Hs. apply canonical_uuid_shape, uuid_match_shape in Hs.
  split; [exact Hs|]. split.
  - intro Hp. rewrite (remove_snapshot_run pb m s Hp).
    unfold snapshot_block. now rewrite Hs.
  - intros Ht Hd Hv. apply canonical_uuid_shape, uuid_match_shape in Ht.
    rewrite (create_snapshot_run pb m s t Hd Hv).
    unfold datacenter_block. rewrite Hs. cbn [fst snd].
    unfold volume_block. rewrite Ht. reflexivity.
Qed.

Lemma snap1_canonical : canonical_uuid Example.snap1.
Proof.
  exists "076017e1", "cc53", "48c3", "b8fb", "1841b6d773b5".
  repeat first [reflexivity | apply conj].
Defined.

Lemma canonical_uuids_are_taken_as_ids_witness :
  remove_snapshot Example.pb (Example.start [("snapshot", PyStr Example.snap1)]) =
  (Ok (PyBool true),
   log (Example.start [("snapshot", PyStr Example.snap1)])
       [EvRemoveSnapshot Example.snap1]).
Proof.
  destruct (canonical_uuids_are_taken_as_ids Example.pb
              (Example.start [("snapshot", PyStr Example.snap1)])
              Example.snap1 EmptyString snap1_canonical)
    as (_ & H & _).
  apply H. reflexivity.
Defined.

Lemma uuid_shape_length (s : string) : uuid_shape s -> (36 <= String.length s)%nat.
Proof.
  intros (g1 & g2 & g3 & g4 & g5 & rest & -> & [L1 _] & [L2 _] & [L3 _] & [L4 _] & [L5 _]).
  repeat (rewrite string_length_app; cbn [String.length]).
  lia.
Qed.

(** X2.  A string of fewer than 36 characters never matches the
    pattern, so a short name is always looked up: the snapshots are
    listed before the removal, and the datacenters are listed first
    before a creation. *)
Theorem short_names_are_looked_up
    (pb : Sdk.service) (m : machine) (s t : string) :
  (String.length s < 36)%nat ->
  uuid_match s = false
  /\ (dict_get "snapshot" (params m) = PyStr s ->
      exists i,
        remove_snapshot pb m =
        (Ok (Sdk.remove_snapshot pb i),
         log m [EvListSnapshots; EvRemoveSnapshot i]))
  /\ (dict_get "datacenter" (params m) = PyStr s ->
      dict_get "volume" (params m) = PyStr t ->
      exists r calls,
        create_snapshot pb m = (Ok r, log m (EvListDatacenters :: calls))).
Proof.
  intro Hlen.
  assert (Hs : uuid_match s = false).
  { destruct (uuid_match s) eqn:E; [|reflexivity].
    apply uuid_match_shape, uuid_shape_length in E. lia. }
  split; [exact Hs|]. split.
  - intro Hp. rewrite (remove_snapshot_run pb m s Hp).
    unfold snapshot_block. rewrite Hs. cbn [fst snd app].
    eexists. reflexivity.
  - intros Hd Hv. rewrite (create_snapshot_run pb m s t Hd Hv).
    unfold datacenter_block at 2 3. rewrite Hs. cbn [fst snd app].
    eexists _, _. reflexivity.
Qed.

Lemma short_names_are_looked_up_witness :
  exists i,
    remove_snapshot Example.pb
      (Example.start [("snapshot", PyStr "my super snapshot")]) =
    (Ok (Sdk.remove_snapshot Example.pb i),
     log (Example.start [("snapshot", PyStr "my super snapshot")])
         [EvListSnapshots; EvRemoveSnapshot i]).
Proof.
  destruct (short_names_are_looked_up Example.pb
              (Example.start [("snapshot", PyStr "my super snapshot")])
              "my super snapshot" EmptyString
              (proj1 (Nat.ltb_lt 17 36) eq_refl))
    as (_ & H & _).
  apply H. reflexivity.
Defined.

(** ** Name resolution, continued *)

Lemma new_calls_log (m : machine) (calls : list event) :
  new_calls m (log m calls) = calls.
Proof. unfold new_calls, log. cbn [trace]. apply skipn_past. Qed.

Lemma locate_by_name_first_hit (name : string) (before rest : list Sdk.resource)
    (d : Sdk.resource) :
  (forall x, In x before -> Sdk.r_name x <> name) ->
  Sdk.r_name d = name ->
  locate_by_name name (before ++ d :: rest) = Sdk.r_id d.
Proof.
  intros Hb Hd. induction before as [|x before IH]; simpl.
  - now rewrite Hd, String.eqb_refl.
  - destruct (String.eqb name (Sdk.r_name x)) eqn:E.
    + apply String.eqb_eq in E. exfalso. apply (Hb x); [now left | now rewrite E].
    + apply IH. intros y Hy. apply Hb. now right.
Qed.

Lemma fetched_first_hit (pb : Sdk.service) (name : string)
    (before rest : list Sdk.resource) (d : Sdk.resource) :
  (forall x, In x before ->
             Sdk.r_name (Sdk.get_datacenter pb (Sdk.r_id x)) <> name) ->
  Sdk.r_name (Sdk.get_datacenter pb (Sdk.r_id d)) = name ->
  fetched pb name (before ++ d :: rest) = map Sdk.r_id (before ++ [d]).
Proof.
  intros Hb Hd. induction before as [|x before IH]; simpl.
  - now rewrite Hd, String.eqb_refl.
  - destruct (String.eqb name (Sdk.r_name (Sdk.get_datacenter pb (Sdk.r_id x)))) eqn:E.
    + apply String.eqb_eq in E. exfalso. apply (Hb x); [now left | now rewrite E].
    + f_equal. apply IH. intros y Hy. apply Hb. now right.
Qed.

Lemma volume_block_lookup (pb : Sdk.service) (d v : string) :
  forall i, ~ In (EvGetDatacenter i) (snd (volume_block pb d v)).
Proof.
  intros i. unfold volume_block. destruct (uuid_match v); cbn [snd In].
  - tauto.
  - intros [H|[]]. discriminate.
Qed.

(** X4.  The datacenter loop breaks at the first hit.  When the
    datacenter is given by a name, the listed datacenters are fetched
    one by one, in the order listed, up to the first whose fetched name
    is that name; its id is used, and no datacenter listed after it is
    fetched. *)
Theorem datacenter_loop_stops_at_first_hit
    (pb : Sdk.service) (m : machine) (name volume : string)
    (before rest : list Sdk.resource) (d : Sdk.resource) :
  dict_get "datacenter" (params m) = PyStr name ->
  dict_get "volume" (params m) = PyStr volume ->
  uuid_match name = false ->
  Sdk.list_datacenters pb = before ++ d :: rest ->
  (forall x, In x before ->
             Sdk.r_name (Sdk.get_datacenter pb (Sdk.r_id x)) <> name) ->
  Sdk.r_name (Sdk.get_datacenter pb (Sdk.r_id d)) = name ->
  exists v vcalls,
    create_snapshot pb m =
    (Ok (Sdk.create_snapshot pb (Sdk.r_id d) v (dict_get "snapshot_name" (params m))
           (dict_get "description" (params m))),
     log m (EvListDatacenters
            :: map (fun x => EvGetDatacenter (Sdk.r_id x)) (before ++ [d])
            ++ vcalls
            ++ [EvCreateSnapshot (Sdk.r_id d) v (dict_get "snapshot_name" (params m))
                  (dict_get "description" (params m))]))
    /\ (forall i, ~ In (EvGetDatacenter i) vcalls).
Proof.
  intros Hd Hv Hm Hl Hb Hhit.
  rewrite (create_snapshot_run pb m name volume Hd Hv).
  assert (E : datacenter_block pb name =
              (Sdk.r_id d,
               EvListDatacenters
               :: map (fun x => EvGetDatacenter (Sdk.r_id x)) (before ++ [d]))).
  { unfold datacenter_block, datacenters_named. rewrite Hm, Hl. f_equal.
    - rewrite map_app. cbn [map].
      apply (locate_by_name_first_hit name (map (as_named pb) before)
               (map (as_named pb) rest) (as_named pb d)); [|exact Hhit].
      intros x Hx. apply in_map_iff in Hx as [y [<- Hy]]. now apply Hb.
    - f_equal. rewrite (fetched_first_hit pb name before rest d Hb Hhit).
      now rewrite map_map. }
  rewrite E. cbn [fst snd].
  exists (fst (volume_block pb (Sdk.r_id d) volume)),
         (snd (volume_block pb (Sdk.r_id d) volume)).
  split; [|apply volume_block_lookup].
  reflexivity.
Qed.

Lemma datacenter_loop_stops_at_first_hit_witness :
  exists v vcalls,
    create_snapshot Example.pb
      (Example.start [("datacenter", PyStr "Gallifrey"); ("volume", PyStr "vol01")]) =
    (Ok (Sdk.create_snapshot Example.pb Example.dc1 v PyNone PyNone),
     log (Example.start [("datacenter", PyStr "Gallifrey"); ("volume", PyStr "vol01")])
         (EvListDatacenters :: [EvGetDatacenter Example.dc1]
          ++ vcalls ++ [EvCreateSnapshot Example.dc1 v PyNone PyNone])).
Proof.
  destruct (datacenter_loop_stops_at_first_hit Example.pb
              (Example.start [("datacenter", PyStr "Gallifrey");
                              ("volume", PyStr "vol01")])
              "Gallifrey" "vol01" []
              [{| Sdk.r_id := Example.dc2; Sdk.r_name := "Tardis One" |}]
              {| Sdk.r_id := Example.dc1; Sdk.r_name := "Gallifrey" |}
              eq_refl eq_refl eq_refl eq_refl)
    as [v [vcalls [H _]]].
  - intros x [].
  - reflexivity.
  - exists v, vcalls. exact H.
Defined.

(** X5.  A name and the id it resolves to are interchangeable: when the
    first listed snapshot with the name has an id that matches the
    pattern, removing by the name and removing by that id end in the
    same [remove_snapshot] call and the same answer; only the list call
    is saved. *)
Theorem removing_by_name_or_by_id
    (pb : Sdk.service) (m m' : machine) (name : string) (r : Sdk.resource) :
  dict_get "snapshot" (params m) = PyStr name ->
  dict_get "snapshot" (params m') = PyStr (Sdk.r_id r) ->
  uuid_match name = false ->
  first_named name (Sdk.list_snapshots pb) = Some r ->
  uuid_match (Sdk.r_id r) = true ->
  fst (remove_snapshot pb m) = fst (remove_snapshot pb m')
  /\ new_calls m (snd (remove_snapshot pb m))
     = [EvListSnapshots; EvRemoveSnapshot (Sdk.r_id r)]
  /\ new_calls m' (snd (remove_snapshot pb m'))
     = [EvRemoveSnapshot (Sdk.r_id r)].
Proof.
  intros Hn Hi Hmn Hfirst Hmi.
  rewrite (remove_snapshot_run pb m name Hn),
          (remove_snapshot_run pb m' (Sdk.r_id r) Hi).
  unfold snapshot_block. rewrite Hmn, Hmi. cbn [fst snd].
  rewrite !new_calls_log, locate_by_name_first, Hfirst.
  repeat split.
Qed.

Lemma removing_by_name_or_by_id_witness :
  fst (remove_snapshot Example.pb
         (Example.start [("snapshot", PyStr "my super snapshot")]))
  = fst (remove_snapshot Example.pb
           (Example.start [("snapshot", PyStr Example.snap1)])).
Proof.
  apply (removing_by_name_or_by_id Example.pb _ _ "my super snapshot"
           {| Sdk.r_id := Example.snap1; Sdk.r_name := "my super snapshot" |});
    reflexivity.
Defined.
(** ** [create_snapshot], [remove_snapshot] and [main] on every input *)

Lemma create_snapshot_total (pb : Sdk.service) (m : machine) :
  create_snapshot pb m =
  match dict_get "datacenter" (params m) with
  | PyStr datacenter =>
      let d := datacenter_block pb datacenter in
      match dict_get "volume" (params m) with
      | PyStr volume =>
          let v := volume_block pb (fst d) volume in
          (Ok (Sdk.create_snapshot pb (fst d) (fst v)
                 (dict_get "snapshot_name" (params m))
                 (dict_get "description" (params m))),
           log m (snd d ++ snd v
                  ++ [EvCreateSnapshot (fst d) (fst v)
                        (dict_get "snapshot_name" (params m))
                        (dict_get "description" (params m))]))
      | _ => (Raised TypeError, log m (snd d))
      end
  | _ => (Raised TypeError, m)
  end.
Proof.
  destruct (dict_get "datacenter" (params m)) as [| b | z | datacenter | items] eqn:Ed;
    try (unfold create_snapshot, bind, params_get; rewrite Ed; reflexivity).
  destruct (dict_get "volume" (params m)) as [| b | z | volume | items] eqn:Ev;
    try (apply (create_snapshot_run pb m datacenter volume Ed Ev));
    cbv zeta;
    unfold create_snapshot, bind, params_get; rewrite Ed, Ev;
    cbn [uuid_match_match ret fst snd]; unfold datacenter_block;
    (destruct (uuid_match datacenter); cbn [negb fst snd];
     [ now rewrite log_nil
     | unfold Client.list_datacenters, bind, ret; rewrite emit_log,
         locate_datacenter_run, log_log; reflexivity ]).
Qed.

Lemma remove_snapshot_total (pb : Sdk.service) (m : machine) :
  remove_snapshot pb m =
  match dict_get "snapshot" (params m) with
  | PyStr snapshot =>
      let s := snapshot_block pb snapshot in
      (Ok (Sdk.remove_snapshot pb (fst s)),
       log m (snd s ++ [EvRemoveSnapshot (fst s)]))
  | _ => (Raised TypeError, m)
  end.
Proof.
  destruct (dict_get "snapshot" (params m)) as [| b | z | snapshot | items] eqn:Es;
    try (unfold remove_snapshot, bind, params_get; rewrite Es; reflexivity).
  apply (remove_snapshot_run pb m snapshot Es).
Qed.

Lemma main_total (svc : pyval -> pyval -> Sdk.service) (m : machine) :
  let get k := dict_get k (params m) in
  let pb := svc (get "subscription_user") (get "subscription_password") in
  main svc m =
  if negb (truthy (get "subscription_user")) then
    (Exited (FailJson "subscription_user parameter is required"), m)
  else if negb (truthy (get "subscription_password")) then
    (Exited (FailJson "subscription_password parameter is required"), m)
  else if eq_str (get "state") "absent" then
    if negb (truthy (get "snapshot")) then
      (Exited (FailJson "snapshot parameter is required"), m)
    else
      match remove_snapshot pb m with
      | (Ok changed, m') => (Exited (ExitJson [("changed", changed)]), m')
      | (Raised e, m') => (Raised e, m')
      | (Exited r, m') => (Exited r, m')
      | (OutOfFuel, m') => (OutOfFuel, m')
      end
  else if eq_str (get "state") "present" then
    if negb (truthy (get "datacenter")) then
      (Exited (FailJson "datacenter parameter is required"), m)
    else if negb (truthy (get "volume")) then
      (Exited (FailJson "volume parameter is required"), m)
    else
      match create_snapshot pb m with
      | (Ok snapshot_dict, m') => (Exited (ExitJson [("snapshot", snapshot_dict)]), m')
      | (Raised e, m') => (Raised e, m')
      | (Exited r, m') => (Exited r, m')
      | (OutOfFuel, m') => (OutOfFuel, m')
      end
  else (Ok tt, m).
Proof.
  cbv zeta. unfold main, bind, params_get, when, ret, fail_json, exit_json.
  destruct (truthy (dict_get "subscription_user" (params m))); cbn [negb];
    [|reflexivity].
  destruct (truthy (dict_get "subscription_password" (params m))); cbn [negb];
    [|reflexivity].
  destruct (eq_str (dict_get "state" (params m)) "absent").
  - destruct (truthy (dict_get "snapshot" (params m))); cbn [negb]; [|reflexivity].
    destruct (remove_snapshot _ m) as [[a|e|r|] m']; reflexivity.
  - destruct (eq_str (dict_get "state" (params m)) "present"); [|reflexivity].
    destruct (truthy (dict_get "datacenter" (params m))); cbn [negb]; [|reflexivity].
    destruct (truthy (dict_get "volume" (params m))); cbn [negb]; [|reflexivity].
    destruct (create_snapshot _ m) as [[a|e|r|] m']; reflexivity.
Qed.

Lemma is_str_true (v : pyval) : is_str v = true -> exists s, v = PyStr s.
Proof. destruct v; try discriminate. intros _. now eexists. Qed.

Lemma datacenter_block_lookups (pb : Sdk.service) (d : string) :
  forallb is_lookup (snd (datacenter_block pb d)) = true.
Proof.
  unfold datacenter_block. destruct (uuid_match d); cbn [snd forallb is_lookup andb];
    [reflexivity|].
  apply forallb_forall. intros e He. apply in_map_iff in He as [i [<- _]]. reflexivity.
Qed.

Lemma volume_block_lookups (pb : Sdk.service) (d v : string) :
  forallb is_lookup (snd (volume_block pb d v)) = true.
Proof. unfold volume_block. destruct (uuid_match v); reflexivity. Qed.

Lemma snapshot_block_lookups (pb : Sdk.service) (s : string) :
  forallb is_lookup (snd (snapshot_block pb s)) = true.
Proof. unfold snapshot_block. destruct (uuid_match s); reflexivity. Qed.

(** ** Errors *)

(** X6.  What [main] refuses, in the order it checks: no user, no
    password, then for state 'absent' no snapshot, and for state
    'present' no datacenter, then no volume.  Each refusal is a
    [fail_json] with the message naming the first parameter found
    missing, and nothing has been asked of the provider by then. *)
Theorem missing_parameters_are_refused
    (svc : pyval -> pyval -> Sdk.service) (m : machine) :
  let get k := dict_get k (params m) in
  (truthy (get "subscription_user") = false ->
   main svc m =
   (Exited (FailJson "subscription_user parameter is required"), m))
  /\ (truthy (get "subscription_user") = true ->
      (truthy (get "subscription_password") = false ->
       main svc m =
       (Exited (FailJson "subscription_password parameter is required"), m))
      /\ (truthy (get "subscription_password") = true ->
          (get "state" = PyStr "absent" ->
           truthy (get "snapshot") = false ->
           main svc m =
           (Exited (FailJson "snapshot parameter is required"), m))
          /\ (get "state" = PyStr "present" ->
              (truthy (get "datacenter") = false ->
               main svc m =
               (Exited (FailJson "datacenter parameter is required"), m))
              /\ (truthy (get "datacenter") = true ->
                  truthy (get "volume") = false ->
                  main svc m =
                  (Exited (FailJson "volume parameter is required"), m))))).
Proof.
  cbv zeta. rewrite main_total. cbv zeta.
  split; [intro Hu; now rewrite Hu|].
  intro Hu. split; [intro Hp; now rewrite Hu, Hp|].
  intro Hp. split; [intros Hst Hs; now rewrite Hu, Hp, Hst, Hs|].
  intro Hst. split; [intro Hd; now rewrite Hu, Hp, Hst, Hd|].
  intros Hd Hv. now rewrite Hu, Hp, Hst, Hd, Hv.
Qed.

Lemma missing_parameters_are_refused_witness :
  main Example.ProfitBricksService
    (Example.start (Example.credentials ++ [("datacenter", PyStr "Tardis One")])) =
  (Exited (FailJson "volume parameter is required"),
   Example.start (Example.credentials ++ [("datacenter", PyStr "Tardis One")])).
Proof.
  destruct (missing_parameters_are_refused Example.ProfitBricksService
              (Example.start (Example.credentials
                              ++ [("datacenter", PyStr "Tardis One")])))
    as [_ H].
  destruct (H eq_refl) as [_ H1].
  destruct (H1 eq_refl) as [_ H2].
  destruct (H2 eq_refl) as [_ H3].
  exact (H3 eq_refl eq_refl).
Defined.

(** X7.  A parameter that is given but is not a string (a number, a
    flag) gets past the guards of [main] and fails at the pattern
    match, as an uncaught [TypeError]: nothing is created or removed
    and nothing is reported.  For the datacenter and the snapshot it
    fails before any call; for the volume it fails after the
    datacenter has been looked up. *)
Theorem non_string_parameters_raise_type_error
    (svc : pyval -> pyval -> Sdk.service) (pb : Sdk.service) (m : machine) :
  let get k := dict_get k (params m) in
  (is_str (get "datacenter") = false ->
   create_snapshot pb m = (Raised TypeError, m))
  /\ (forall d, get "datacenter" = PyStr d ->
                is_str (get "volume") = false ->
                exists calls,
                  create_snapshot pb m = (Raised TypeError, log m calls)
                  /\ forallb is_lookup calls = true
                  /\ (uuid_match d = false -> In EvListDatacenters calls))
  /\ (is_str (get "snapshot") = false ->
      remove_snapshot pb m = (Raised TypeError, m))
  /\ (truthy (get "subscription_user") = true ->
      truthy (get "subscription_password") = true ->
      (get "state" = PyStr "present" ->
       truthy (get "datacenter") = true -> truthy (get "volume") = true ->
       is_str (get "datacenter") = false ->
       main svc m = (Raised TypeError, m))
      /\ (get "state" = PyStr "absent" ->
          truthy (get "snapshot") = true ->
          is_str (get "snapshot") = false ->
          main svc m = (Raised TypeError, m))).
Proof.
  cbv zeta.
  assert (C : is_str (dict_get "datacenter" (params m)) = false ->
              forall pb, create_snapshot pb m = (Raised TypeError, m)).
  { intros H pb'. rewrite create_snapshot_total.
    destruct (dict_get "datacenter" (params m)); try reflexivity. discriminate. }
  assert (R : is_str (dict_get "snapshot" (params m)) = false ->
              forall pb, remove_snapshot pb m = (Raised TypeError, m)).
  { intros H pb'. rewrite remove_snapshot_total.
    destruct (dict_get "snapshot" (params m)); try reflexivity. discriminate. }
  split; [intro H; now apply C|].
  split; [|split; [intro H; now apply R|]].
  - intros d Hd Hv. exists (snd (datacenter_block pb d)).
    split; [|split].
    + rewrite create_snapshot_total, Hd. cbv zeta.
      destruct (dict_get "volume" (params m)); try reflexivity. discriminate.
    + apply datacenter_block_lookups.
    + intro Hm. unfold datacenter_block. rewrite Hm. now left.
  - intros Hu Hp. split.
    + intros Hst Hd Hv Hn. rewrite main_total. cbv zeta.
      rewrite Hu, Hp, Hst, Hd, Hv. cbn [negb eq_str String.eqb Ascii.eqb Bool.eqb].
      now rewrite (C Hn).
    + intros Hst Hs Hn. rewrite main_total. cbv zeta.
      rewrite Hu, Hp, Hst, Hs. cbn [negb eq_str String.eqb Ascii.eqb Bool.eqb].
      now rewrite (R Hn).
Qed.

Lemma non_string_parameters_raise_type_error_witness :
  main Example.ProfitBricksService
    (Example.start (Example.credentials
                    ++ [("datacenter", PyInt 42); ("volume", PyStr "vol01")])) =
  (Raised TypeError,
   Example.start (Example.credentials
                  ++ [("datacenter", PyInt 42); ("volume", PyStr "vol01")])).
Proof.
  destruct (non_string_parameters_raise_type_error Example.ProfitBricksService
              Example.pb
              (Example.start (Example.credentials
                              ++ [("datacenter", PyInt 42);
                                  ("volume", PyStr "vol01")])))
    as (_ & _ & _ & H).
  destruct (H eq_refl eq_refl) as [H1 _].
  exact (H1 eq_refl eq_refl eq_refl eq_refl).
Defined.

(** ** What [main] does to the provider *)

(** X8.  A run of [main] takes one of two courses.  Either it makes
    look-up calls only and does not report success; or it makes look-up
    calls, then exactly one create or remove call, which is its last
    call, and then reports success through [exit_json].  So nothing is
    created or removed without a success report, and no failure is
    reported after something was created or removed. *)
Theorem one_lifecycle_call_then_success
    (svc : pyval -> pyval -> Sdk.service) (m : machine) :
  exists calls,
    snd (main svc m) = log m calls
    /\ ((forallb is_lookup calls = true
         /\ forall kwargs, fst (main svc m) <> Exited (ExitJson kwargs))
        \/ (exists pre e kwargs,
              calls = pre ++ [e]
              /\ forallb is_lookup pre = true
              /\ is_lifecycle e = true
              /\ fst (main svc m) = Exited (ExitJson kwargs))).
Proof.
  assert (Q : forall r : res unit,
             (forall kwargs, r <> Exited (ExitJson kwargs)) ->
             exists calls,
               snd (r, m) = log m calls
               /\ ((forallb is_lookup calls = true
                    /\ forall kwargs, fst (r, m) <> Exited (ExitJson kwargs))
                   \/ (exists pre e kwargs,
                         calls = pre ++ [e]
                         /\ forallb is_lookup pre = true
                         /\ is_lifecycle e = true
                         /\ fst (r, m) = Exited (ExitJson kwargs)))).
  { intros r Hr. exists []. rewrite log_nil. split; [reflexivity|]. left.
    split; [reflexivity | exact Hr]. }
  rewrite main_total. cbv zeta.
  set (pb := svc _ _).
  destruct (negb (truthy (dict_get "subscription_user" (params m))));
    [apply Q; discriminate|].
  destruct (negb (truthy (dict_get "subscription_password" (params m))));
    [apply Q; discriminate|].
  destruct (eq_str (dict_get "state" (params m)) "absent").
  - destruct (negb (truthy (dict_get "snapshot" (params m))));
      [apply Q; discriminate|].
    rewrite remove_snapshot_total.
    destruct (dict_get "snapshot" (params m)) as [| b | z | s | items];
      try (apply Q; discriminate).
    cbv zeta. eexists. split; [reflexivity|]. right.
    eexists _, _, _. split; [reflexivity|].
    split; [apply snapshot_block_lookups|]. split; reflexivity.
  - destruct (eq_str (dict_get "state" (params m)) "present");
      [|apply Q; discriminate].
    destruct (negb (truthy (dict_get "datacenter" (params m))));
      [apply Q; discriminate|].
    destruct (negb (truthy (dict_get "volume" (params m))));
      [apply Q; discriminate|].
    rewrite create_snapshot_total.
    destruct (dict_get "datacenter" (params m)) as [| b | z | d | items];
      try (apply Q; discriminate).
    cbv zeta.
    destruct (dict_get "volume" (params m)) as [| b | z | v | items];
      try (eexists; split; [reflexivity|]; left;
           split; [apply datacenter_block_lookups | discriminate]).
    eexists. split; [reflexivity|]. right.
    eexists (snd (datacenter_block pb d)
             ++ snd (volume_block pb (fst (datacenter_block pb d)) v)), _, _.
    split; [now rewrite <- app_assoc|].
    split; [|split; reflexivity].
    rewrite forallb_app, datacenter_block_lookups, volume_block_lookups.
    reflexivity.
Qed.

Lemma new_calls_same (m : machine) : new_calls m m = [].
Proof.
  rewrite <- (log_nil m) at 2. apply new_calls_log.
Qed.

Lemma fetched_length (pb : Sdk.service) (name : string) (items : list Sdk.resource) :
  (List.length (fetched pb name items) <= List.length items)%nat.
Proof.
  induction items as [|d rest IH]; simpl; [lia|].
  destruct (String.eqb name (Sdk.r_name (Sdk.get_datacenter pb (Sdk.r_id d))));
    simpl; lia.
Qed.

(** X9.  The number of requests is bounded by the size of the
    datacenter listing: [create_snapshot] makes at most one
    [get_datacenter] call per listed datacenter and at most three other
    calls; [remove_snapshot] makes at most two calls; whatever the
    parameters are. *)
Theorem calls_are_bounded (pb : Sdk.service) (m : machine) :
  (List.length (new_calls m (snd (create_snapshot pb m)))
   <= List.length (Sdk.list_datacenters pb) + 3)%nat
  /\ (List.length (filter (fun e => match e with
                                    | EvGetDatacenter _ => true
                                    | _ => false
                                    end)
                          (new_calls m (snd (create_snapshot pb m))))
      <= List.length (Sdk.list_datacenters pb))%nat
  /\ (List.length (new_calls m (snd (remove_snapshot pb m))) <= 2)%nat.
Proof.
  assert (D : forall d,
             (List.length (snd (datacenter_block pb d))
              <= List.length (Sdk.list_datacenters pb) + 1)%nat
             /\ (List.length (filter (fun e => match e with
                                               | EvGetDatacenter _ => true
                                               | _ => false
                                               end)
                                     (snd (datacenter_block pb d)))
                 <= List.length (Sdk.list_datacenters pb))%nat).
  { intro d. unfold datacenter_block. destruct (uuid_match d); cbn [snd];
      [cbn; lia|].
    pose proof (fetched_length pb d (Sdk.list_datacenters pb)) as F.
    cbn [List.length filter]. split.
    - rewrite length_map. lia.
    - etransitivity; [apply filter_length_le|]. now rewrite length_map. }
  assert (V : forall d v,
             (List.length (snd (volume_block pb d v)) <= 1)%nat
             /\ filter (fun e => match e with
                                 | EvGetDatacenter _ => true
                                 | _ => false
                                 end)
                       (snd (volume_block pb d v)) = []).
  { intros d v. unfold volume_block. destruct (uuid_match v); cbn; split;
      first [lia | reflexivity]. }
  split; [|split].
  - rewrite create_snapshot_total.
    destruct (dict_get "datacenter" (params m)) as [| b | z | d | items];
      try (cbn [snd]; rewrite new_calls_same; cbn; lia).
    cbv zeta. destruct (D d) as [D1 _].
    destruct (dict_get "volume" (params m)) as [| b | z | v | items];
      cbn [snd]; rewrite new_calls_log; try lia.
    destruct (V (fst (datacenter_block pb d)) v) as [V1 _].
    rewrite !length_app. cbn [List.length]. lia.
  - rewrite create_snapshot_total.
    destruct (dict_get "datacenter" (params m)) as [| b | z | d | items];
      try (cbn [snd]; rewrite new_calls_same; cbn; lia).
    cbv zeta. destruct (D d) as [_ D2].
    destruct (dict_get "volume" (params m)) as [| b | z | v | items];
      cbn [snd]; rewrite new_calls_log; try exact D2.
    destruct (V (fst (datacenter_block pb d)) v) as [_ V2].
    rewrite !filter_app, V2. cbn [filter app]. now rewrite app_nil_r.
  - rewrite remove_snapshot_total.
    destruct (dict_get "snapshot" (params m)) as [| b | z | s | items];
      try (cbn [snd]; rewrite new_calls_same; cbn; lia).
    cbv zeta. cbn [snd]. rewrite new_calls_log.
    unfold snapshot_block. destruct (uuid_match s); cbn; lia.
Qed.

(** X10.  Once the parameters are parsed, [main] does not look at
    [wait] and [wait_timeout]: on two sets of [module.params] that
    agree on every other key it gives the same result and makes the
    same calls. *)
Theorem wait_parameters_have_no_effect
    (svc : pyval -> pyval -> Sdk.service) (m m' : machine) :
  (forall k, k <> "wait" -> k <> "wait_timeout" ->
             dict_get k (params m) = dict_get k (params m')) ->
  fst (main svc m) = fst (main svc m')
  /\ new_calls m (snd (main svc m)) = new_calls m' (snd (main svc m')).
Proof.
  intro H.
  assert (G : forall k, String.eqb k "wait" = false ->
                        String.eqb k "wait_timeout" = false ->
                        dict_get k (params m') = dict_get k (params m)).
  { intros k H1 H2. symmetry. apply H; now apply String.eqb_neq. }
  rewrite (main_total svc m), (main_total svc m'). cbv zeta.
  rewrite (create_snapshot_total _ m), (create_snapshot_total _ m').
  rewrite (remove_snapshot_total _ m), (remove_snapshot_total _ m'). cbv zeta.
  rewrite !G by reflexivity.
  set (pb := svc _ _).
  destruct (negb (truthy (dict_get "subscription_user" (params m))));
    [cbn [fst snd]; now rewrite !new_calls_same|].
  destruct (negb (truthy (dict_get "subscription_password" (params m))));
    [cbn [fst snd]; now rewrite !new_calls_same|].
  destruct (eq_str (dict_get "state" (params m)) "absent").
  - destruct (negb (truthy (dict_get "snapshot" (params m))));
      [cbn [fst snd]; now rewrite !new_calls_same|].
    destruct (dict_get "snapshot" (params m)) as [| b | z | s | items];
      cbn [fst snd]; rewrite ?new_calls_same, ?new_calls_log; now split.
  - destruct (eq_str (dict_get "state" (params m)) "present");
      [|cbn [fst snd]; now rewrite !new_calls_same].
    destruct (negb (truthy (dict_get "datacenter" (params m))));
      [cbn [fst snd]; now rewrite !new_calls_same|].
    destruct (negb (truthy (dict_get "volume" (params m))));
      [cbn [fst snd]; now rewrite !new_calls_same|].
    destruct (dict_get "datacenter" (params m)) as [| b | z | d | items];
      try (cbn [fst snd]; now rewrite !new_calls_same).
    destruct (dict_get "volume" (params m)) as [| b | z | v | items];
      cbn [fst snd]; rewrite ?new_calls_log; now split.
Qed.

Lemma wait_parameters_have_no_effect_witness :
  fst (main Example.ProfitBricksService (Example.start Example.create_task))
  = fst (main Example.ProfitBricksService
           (Example.start (("wait", PyBool false) :: ("wait_timeout", PyInt 1)
                           :: Example.create_task))).
Proof.
  apply (wait_parameters_have_no_effect Example.ProfitBricksService
           (Example.start Example.create_task)
           (Example.start (("wait", PyBool false) :: ("wait_timeout", PyInt 1)
                           :: Example.create_task))).
  intros k Hw Ht.
  unfold dict_get, Example.start, boot, AnsibleModule, argument_spec.
  cbn [params map fst snd lookup].
  repeat match goal with
         | |- context [String.eqb k ?lit] =>
             destruct (String.eqb_spec k lit);
             [ first [reflexivity | contradiction] |]
         end.
  reflexivity.
Defined.

(** ** The polling loop, continued *)

Lemma deadline_not_after_start (pb : Sdk.service) (m : machine) (wait_timeout : Q) :
  time_passes pb m -> (wait_timeout <= 0)%Q ->
  (deadline_of m wait_timeout <= clock m)%Q.
Proof.
  intros (_ & _ & Hf) Hw.
  apply (Hf (clock m) wait_timeout EmptyString 0%nat).
  change (after pb EmptyString 0 m) with m. lra.
Qed.

(** X12.  With a [wait_timeout] of zero or less, and the clock keeping
    time, the helper gives up at once: it raises the timeout exception
    without sleeping and without asking for the status, whatever state
    the request is in. *)
Theorem nonpositive_timeout_gives_up_at_once (pb : Sdk.service) (m : machine)
    (items : list (string * string)) (request_id msg : string)
    (wait_timeout : Q) (fuel : nat) :
  lookup "requestId" items = Some request_id ->
  time_passes pb m ->
  (wait_timeout <= 0)%Q ->
  _wait_for_completion (S fuel) pb (PyDict items) wait_timeout msg m =
  (Raised (Exception (timeout_message msg request_id)), m).
Proof.
  intros Hid Ht Hw.
  pose proof (deadline_not_after_start pb m wait_timeout Ht Hw) as Hd.
  rewrite wait_for_completion_loop
    by (destruct items; [discriminate | reflexivity]).
  rewrite (wait_loop_step pb request_id msg items Hid).
  destruct (Qlt_le_dec (clock m) (deadline_of m wait_timeout)) as [Hlt|Hge];
    [exfalso; lra | reflexivity].
Qed.

Lemma nonpositive_timeout_gives_up_at_once_witness :
  _wait_for_completion 1 Example.pb Example.promise 0 "create_snapshot"
    (Example.start []) =
  (Raised (Exception (timeout_message "create_snapshot" "req-1")), Example.start []).
Proof.
  apply (nonpositive_timeout_gives_up_at_once Example.pb (Example.start [])
           [("requestId", "req-1")] "req-1" "create_snapshot" 0 0 eq_refl
           (proj1 (time_passes_example (fun _ => "DONE") []))).
  discriminate.
Defined.





Lemma ceiling_within (w : Q) (n : nat) :
  (w <= 5 * inject_Z (Z.of_nat n))%Q ->
  (Z.to_nat (Qceiling (w / 5)) <= n)%nat.
Proof.
  intro H.
  assert (Hq : (w / 5 <= inject_Z (Z.of_nat n))%Q).
  { set (c := inject_Z (Z.of_nat n)) in *. clearbody c.
    unfold Qdiv. change (/ 5)%Q with (1 # 5)%Q. lra. }
  apply Qceiling_resp_le in Hq. rewrite Qceiling_Z in Hq. lia.
Qed.

(** X15.  The bound of C4 is reached.  On a clock where a sleep lasts
    exactly as long as asked and a request takes no time, when the sum
    that gives the deadline is exact (nothing is lost in rounding), and
    with a request that never reaches "DONE" or "FAILED", the helper
    makes exactly ceil(wait_timeout / 5) turns (none for a
    [wait_timeout] of zero or less) and raises the timeout exception 5
    seconds times that number after it started, so less than 5 seconds
    late. *)
Theorem timeout_takes_the_whole_bound (pb : Sdk.service) (m : machine)
    (items : list (string * string)) (request_id msg : string)
    (wait_timeout : Q) (fuel : nat) :
  lookup "requestId" items = Some request_id ->
  (forall k, oversleep m k == 0)%Q ->
  (forall k, Sdk.latency pb k == 0)%Q ->
  (deadline_of m wait_timeout == clock m + wait_timeout)%Q ->
  (forall k, terminal (Sdk.get_request pb request_id k) = false) ->
  (Z.to_nat (Qceiling (wait_timeout / 5)) < fuel)%nat ->
  let run := _wait_for_completion fuel pb (PyDict items) wait_timeout msg m in
  let turns := Z.to_nat (Qceiling (wait_timeout / 5)) in
  fst run = Raised (Exception (timeout_message msg request_id))
  /\ sleeps (snd run) = (sleeps m + turns)%nat
  /\ polls (snd run) = (polls m + turns)%nat
  /\ (clock (snd run) == clock m + 5 * inject_Z (Z.of_nat turns))%Q
  /\ ((0 <= wait_timeout)%Q -> (clock (snd run) < clock m + wait_timeout + 5)%Q).
Proof.
  intros Hid Ho Hl Hexact Hst Hf.
  assert (Hd : (deadline_of m wait_timeout <=
                clock (after pb request_id
                         (Z.to_nat (Qceiling (wait_timeout / 5))) m))%Q).
  { rewrite Hexact, (after_clock_exact pb request_id _ m Ho Hl).
    pose proof (ceiling_covers wait_timeout) as Hc.
    set (c := inject_Z (Z.of_nat (Z.to_nat (Qceiling (wait_timeout / 5))))) in *.
    clearbody c. lra. }
  destruct (wait_loop_run pb request_id msg items Hid
              (deadline_of m wait_timeout) _ fuel m Hd Hf)
    as (n & Hn & Hrun & Hbefore & _ & Hup).
  rewrite <- wait_for_completion_loop in Hrun
    by (destruct items; [discriminate | reflexivity]).
  assert (Hlast : gave_up (last_status pb request_id m n) = true
                  /\ verdict msg request_id (last_status pb request_id m n)
                     = Raised (Exception (timeout_message msg request_id))).
  { destruct n as [|n']; cbn [last_status gave_up verdict]; [now split|].
    pose proof (Hst (polls m + n')%nat) as Hk. fold (status_at pb request_id m n') in Hk.
    rewrite Hk. unfold terminal in Hk. apply orb_false_iff in Hk as [-> ->].
    now split. }
  destruct Hlast as [Hg Hv].
  pose proof (after_clock_exact pb request_id n m Ho Hl) as Hc.
  specialize (Hup Hg). rewrite Hc, Hexact in Hup.
  assert (En : Z.to_nat (Qceiling (wait_timeout / 5)) = n).
  { apply Nat.le_antisymm; [|exact Hn]. apply ceiling_within.
    set (c := inject_Z (Z.of_nat n)) in *. clearbody c. lra. }
  cbv zeta. rewrite Hrun, Hv, En. cbn [fst snd].
  destruct (after_fields pb request_id n m) as (_ & -> & -> & _).
  repeat split; [exact Hc|].
  intro Hw. rewrite Hc.
  destruct n as [|n'].
  - change (inject_Z (Z.of_nat 0)) with 0%Q. lra.
  - assert (Hb : (n' < S n')%nat) by lia. apply Hbefore in Hb.
    rewrite (after_clock_exact pb request_id n' m Ho Hl), Hexact in Hb.
    rewrite Nat2Z.inj_succ, <- Z.add_1_r, inject_Z_plus.
    change (inject_Z 1) with 1%Q.
    set (c := inject_Z (Z.of_nat n')) in *. clearbody c. lra.
Qed.

Lemma timeout_takes_the_whole_bound_witness :
  let run := _wait_for_completion 4 Example.never_done Example.promise 12
               "create_snapshot" (Example.start []) in
  fst run = Raised (Exception (timeout_message "create_snapshot" "req-1"))
  /\ sleeps (snd run) = 3%nat
  /\ (clock (snd run) == 15)%Q.
Proof.
  destruct (timeout_takes_the_whole_bound Example.never_done (Example.start [])
              [("requestId", "req-1")] "req-1" "create_snapshot" 12 4
              eq_refl (fun _ => Qeq_refl 0) (fun _ => Qeq_refl 0)
              (Qeq_refl (0 + 12)) (fun _ => eq_refl)
              (proj1 (Nat.ltb_lt 3 4) eq_refl))
    as (H1 & H2 & _ & H4 & _).
  split; [exact H1|]. split; [exact H2 | exact H4].
Defined.

(** X16.  On a promise that carries a request id, and with the clock
    keeping time, the helper overruns its deadline by less than one
    turn: when it has polled at all, it comes back before the deadline
    plus the length of its last turn, which is the 5 seconds, what the
    last sleep took on top of them and what the last status request
    took.  When it has not polled, it has not slept either and no time
    has passed. *)
Theorem overrun_is_less_than_one_turn (pb : Sdk.service) (m : machine)
    (items : list (string * string)) (request_id msg : string)
    (wait_timeout : Q) (fuel : nat) :
  lookup "requestId" items = Some request_id ->
  time_passes pb m ->
  (Z.to_nat (Qceiling (wait_timeout / 5)) < fuel)%nat ->
  let run := _wait_for_completion fuel pb (PyDict items) wait_timeout msg m in
  ((polls m < polls (snd run))%nat ->
   (clock (snd run) <
    deadline_of m wait_timeout + 5
    + oversleep m (sleeps (snd run) - 1) + Sdk.latency pb (polls (snd run) - 1))%Q)
  /\ (polls (snd run) = polls m -> snd run = m).
Proof.
  intros Hid Ht Hf.
  destruct (wait_for_completion_run pb m items request_id msg wait_timeout fuel
              Hid Ht Hf) as (n & _ & Hrun & Hbefore & _).
  cbv zeta. rewrite Hrun. cbn [fst snd].
  destruct (after_fields pb request_id n m) as (_ & Hs & Hp & _). rewrite Hs, Hp.
  split.
  - intro Hn. destruct n as [|n']; [lia|].
    replace (sleeps m + S n' - 1)%nat with (sleeps m + n')%nat by lia.
    replace (polls m + S n' - 1)%nat with (polls m + n')%nat by lia.
    rewrite after_last_turn.
    assert (Hb : (n' < S n')%nat) by lia. apply Hbefore in Hb. lra.
  - intro Hn. assert (n = 0)%nat as -> by lia. reflexivity.
Qed.

Lemma overrun_is_less_than_one_turn_witness :
  let run := _wait_for_completion 4 Example.stuck Example.promise 12
               "create_snapshot" (Example.start []) in
  (clock (snd run) < (0 + 12) + 5 + 0 + (1 # 4))%Q.
Proof.
  destruct (overrun_is_less_than_one_turn Example.stuck (Example.start [])
              [("requestId", "req-1")] "req-1" "create_snapshot" 12 4
              eq_refl (proj2 (time_passes_example (fun _ => "RUNNING") []))
              (proj1 (Nat.ltb_lt 3 4) eq_refl))
    as [H _].
  apply H. apply Nat.ltb_lt. reflexivity.
Defined.
